(** * Diligent-Project: the CSV loader and the report materializer

    A shallow embedding of [insert_data.py] and [run_report_to_db.py] and of
    the part of the embedded store (SQLite through Python's [sqlite3] module)
    that the two scripts drive, followed by the properties of the
    specification.

    What is taken from outside the repository:
    - Python's binary64 values are the type of the class [PyFloat]; [int()]
      and [float()] on text are the fields of the class [PyConv];
    - the evaluation of a SELECT text and the engine's draw of a random rowid
      are the fields of the class [Engine];
    - a CSV file is given by the list of dictionaries that [csv.DictReader]
      yields for it (a missing key and a [None] value read the same through
      [dict.get]); undecodable files are not represented;
    - text is ASCII; paths are taken as already normalised strings;
    - the store holds tables only (no views, triggers or column defaults), each
      with its declared columns; a value is stored as it is bound, which is
      what type affinity does to the values the loader binds into the tables
      of [create_tables] ([int] or [None] into INTEGER, [float] or [None]
      into REAL, [str] or [None] into TEXT);
    - no table declares a foreign key into [report_output], so that dropping
      it needs no check;
    - the six names under which the scripts create tables are lower-case
      words, none of them an SQL keyword or the name of a built-in table; a
      store holds such a table under that spelling (SQLite compares names
      without regard to letter case), and the engine reads the name, spliced
      into a statement, as the table of that name. What any other text
      spliced into [SELECT COUNT( * ) FROM ...] counts (a name in other
      letter case, a qualified or quoted name, [sqlite_master], a subquery,
      text that is no SQL) is a field of the class [Engine];
    - [sqlite3] binds a [float] that is a NaN as NULL; the test for NaN is a
      field of the class [PyConv];
    - the [sqlite3] module is the one of Python 3.6 and later with the default
      isolation level: a transaction is opened implicitly before INSERT, and
      DDL statements run in autocommit mode when no transaction is open. *)

From Stdlib Require Import Ascii ZArith Lia.
From stdpp Require Import base option list gmap strings pretty.

Local Open Scope string_scope.
Local Open Scope list_scope.
Local Open Scope Z_scope.

(** ** Python builtins used by the loader *)

(** The type of Python's [float] values. *)
Class PyFloat := { pyfloat : Type }.

Class PyConv `{PyFloat} := {
  (** [int(v)] on a [str]: [None] stands for [ValueError] *)
  py_int : string → option Z;
  (** [float(v)] on a [str]: [None] stands for [ValueError] *)
  py_float : string → option pyfloat;
  (** [math.isnan(x)] *)
  py_isnan : pyfloat → bool;
}.

(** Exceptions that the two scripts can raise or let through. *)
Inductive exn :=
  | ValueError_int (v : string)
  | ValueError_float (v : string)
  | ValueError_unknown_table (table : string)
  | TypeError
  | OverflowError
  | ProgrammingError
  | NoSuchTable (table : string)
  | NoSuchColumn (table column : string)
  | TableExists (table : string)
  | SqlError (sql : string)
  | DatabaseFull
  | DatatypeMismatch
  | ForeignKeyMismatch
  | ForeignKeyFailed.

Inductive result (A : Type) :=
  | Ok (a : A)
  | Raise (e : exn).
Arguments Ok {A} a.
Arguments Raise {A} e.

Definition is_type_conversion_error (e : exn) : bool :=
  match e with
  | ValueError_int _ | ValueError_float _ => true
  | _ => false
  end.

Global Instance result_ret : MRet result := λ A a, Ok a.
Global Instance result_bind : MBind result := λ A B f r,
  match r with
  | Ok a => f a
  | Raise e => Raise e
  end.

(** [for x in l: acc.append(f(x))] with a fallible [f]: the first failure
    aborts the loop. *)
Fixpoint for_each {A B} (f : A → result B) (l : list A) : result (list B) :=
  match l with
  | [] => Ok []
  | x :: l' =>
      match f x with
      | Raise e => Raise e
      | Ok y =>
          match for_each f l' with
          | Raise e => Raise e
          | Ok ys => Ok (y :: ys)
          end
      end
  end.

(** ** The store *)

Module Sqlite.
Section Store.
Context `{PyFloat}.

Inductive value :=
  | VNull
  | VInt (z : Z)
  | VReal (x : pyfloat)
  | VText (s : string).

Definition row := list value.

Inductive coltype := INTEGER | REAL | TEXT.

Record column := Col {
  col_name : string;
  col_type : coltype;
  col_pk : bool;                        (* INTEGER PRIMARY KEY: the rowid alias *)
  col_notnull : bool;                   (* NOT NULL *)
  col_ref : option (string * string);   (* FOREIGN KEY ... REFERENCES table(column) *)
}.

Definition schema := list column.

(** A table: its declared columns and its rows in insertion order. *)
Record table := Table {
  tbl_schema : schema;
  tbl_rows : list row;
}.

(** A database: its tables by name. *)
Abbreviation db := (gmap string table).

(** What the engine does beyond the statements modelled below. *)
Class Engine := {
  (** the table that [CREATE TABLE _ AS <text>] builds from the result set of
      [<text>]; [None] when the text is not a query the engine accepts on
      this database *)
  sql_select : string → db → option table;
  (** the key the engine draws for a NULL rowid once the largest key is
      taken *)
  random_rowid : list row → option Z;
  (** what [SELECT COUNT( * ) FROM <text>] returns for a text that is not one
      of the scripts' own table names: the count, or the engine's error *)
  sql_count : string → db → result nat;
}.
Context `{Engine}.

(** The names under which the two scripts create tables. *)
Definition plain_names : list string :=
  ["categories"; "products"; "customers"; "orders"; "reviews"; "report_output"].

(** [SELECT COUNT( * ) FROM <text>]: one of the scripts' own names is the
    table of that name; any other text is for the engine to resolve. *)
Definition count_from (text : string) (d : db) : result nat :=
  if bool_decide (text ∈ plain_names) then
    match d !! text with
    | Some tb => Ok (length (tbl_rows tb))
    | None => Raise (NoSuchTable text)
    end
  else sql_count text d.

Definition is_null (v : value) : bool :=
  match v with VNull => true | _ => false end.

Definition int64_min : Z := -9223372036854775808.
Definition int64_max : Z := 9223372036854775807.

Definition in_int64 (z : Z) : bool := (int64_min <=? z) && (z <=? int64_max).

(** Binding a Python value to a placeholder: an [int] outside 64 bits
    raises [OverflowError]. *)
Definition bindable (v : value) : bool :=
  match v with VInt z => in_int64 z | _ => true end.

(** Position of the INTEGER PRIMARY KEY column. *)
Fixpoint pk_index (sch : schema) : option nat :=
  match sch with
  | [] => None
  | c :: sch' => if col_pk c then Some 0%nat else S <$> pk_index sch'
  end.

Fixpoint col_index (c : string) (sch : schema) : option nat :=
  match sch with
  | [] => None
  | x :: sch' => if String.eqb c (col_name x) then Some 0%nat else S <$> col_index c sch'
  end.

Definition row_key (i : nat) (r : row) : option Z :=
  match r !! i with
  | Some (VInt k) => Some k
  | _ => None
  end.

Definition has_id (i : nat) (k : Z) (rows : list row) : bool :=
  existsb (λ r, match row_key i r with Some k' => k =? k' | None => false end) rows.

Definition max_id (i : nat) (rows : list row) : option Z :=
  foldr (λ r acc,
           match row_key i r, acc with
           | Some k, Some m => Some (Z.max k m)
           | Some k, None => Some k
           | None, _ => acc
           end) None rows.

(** The value a statement's column list and parameters give to column [c];
    a column that the statement does not name gets NULL. *)
Fixpoint param_of (c : string) (cols : list string) (p : list value) : value :=
  match cols, p with
  | c' :: cols', v :: p' => if String.eqb c c' then v else param_of c cols' p'
  | _, _ => VNull
  end.

Definition new_row (sch : schema) (cols : list string) (p : list value) : row :=
  map (λ c, param_of (col_name c) cols p) sch.

(** NOT NULL on a column other than the rowid alias (a NULL rowid is
    replaced by a fresh key). *)
Definition violates_notnull (sch : schema) (r : row) : bool :=
  existsb (λ cv : column * value,
             col_notnull cv.1 && negb (col_pk cv.1) && is_null cv.2) (zip sch r).

(** The key of the row to insert. [Ok None]: the key is taken, which
    [OR IGNORE] resolves by skipping the row. *)
Definition assign_key (sch : schema) (rows : list row) (r : row) : result (option row) :=
  match pk_index sch with
  | None => Ok (Some r)
  | Some i =>
      match r !! i with
      | Some VNull =>
          match max_id i rows with
          | None => Ok (Some (<[i := VInt 1]> r))
          | Some m =>
              if m <? int64_max then Ok (Some (<[i := VInt (m + 1)]> r))
              else
                match random_rowid rows with
                | Some k =>
                    if in_int64 k && negb (has_id i k rows)
                    then Ok (Some (<[i := VInt k]> r))
                    else Raise DatabaseFull
                | None => Raise DatabaseFull
                end
          end
      | Some (VInt k) => if has_id i k rows then Ok None else Ok (Some r)
      | _ => Raise DatatypeMismatch
      end
  end.

(** The parent key a foreign key points to: the parent table must exist and
    the referenced column must be its primary key. *)
Definition parent_key (d : db) (ref : string * string) : result nat :=
  match d !! ref.1 with
  | None => Raise (NoSuchTable ref.1)
  | Some pt =>
      match pk_index (tbl_schema pt), col_index ref.2 (tbl_schema pt) with
      | Some i, Some j => if (i =? j)%nat then Ok i else Raise ForeignKeyMismatch
      | _, _ => Raise ForeignKeyMismatch
      end
  end.

(** Immediate foreign keys, checked when the statement ends: every non-NULL
    child key has its parent row. *)
Definition fk_holds (d : db) (cv : column * value) : bool :=
  match col_ref cv.1 with
  | None => true
  | Some ref =>
      match cv.2 with
      | VNull => true
      | VInt k =>
          match parent_key d ref, d !! ref.1 with
          | Ok i, Some pt => has_id i k (tbl_rows pt)
          | _, _ => false
          end
      | _ => false
      end
  end.

Definition fk_ok (d : db) (sch : schema) (r : row) : bool :=
  forallb (fk_holds d) (zip sch r).

(** Compiling [INSERT OR IGNORE INTO t (cols) VALUES (?, ...)]. *)
Definition prepare_insert (fk_on : bool) (t : string) (cols : list string) (d : db)
  : result unit :=
  match d !! t with
  | None => Raise (NoSuchTable t)
  | Some tb =>
      match list_find (λ c, col_index c (tbl_schema tb) = None) cols with
      | Some (_, c) => Raise (NoSuchColumn t c)
      | None =>
          if fk_on then
            _ ← for_each (λ c, match col_ref c with
                               | Some ref => parent_key d ref
                               | None => Ok 0%nat
                               end) (tbl_schema tb);
            Ok ()
          else Ok ()
      end
  end.

(** One run of the compiled insert with one tuple of parameters. *)
Definition insert_or_ignore (fk_on : bool) (t : string) (cols : list string)
    (p : list value) (d : db) : result db :=
  match d !! t with
  | None => Raise (NoSuchTable t)
  | Some tb =>
      let sch := tbl_schema tb in
      if negb (length p =? length cols)%nat then Raise ProgrammingError
      else if negb (forallb bindable p) then Raise OverflowError
      else
        let r := new_row sch cols p in
        if violates_notnull sch r then Ok d
        else
          match assign_key sch (tbl_rows tb) r with
          | Raise e => Raise e
          | Ok None => Ok d
          | Ok (Some r') =>
              let d' := <[t := Table sch (tbl_rows tb ++ [r'])]> d in
              if fk_on && negb (fk_ok d' sch r') then Raise ForeignKeyFailed
              else Ok d'
          end
  end.

(** The parameter tuples are run in order; a failing one stops the loop and
    keeps what the earlier ones did. *)
Fixpoint insert_many (fk_on : bool) (t : string) (cols : list string)
    (ps : list (list value)) (d : db) : result unit * db :=
  match ps with
  | [] => (Ok (), d)
  | p :: ps' =>
      match insert_or_ignore fk_on t cols p d with
      | Raise e => (Raise e, d)
      | Ok d' => insert_many fk_on t cols ps' d'
      end
  end.

(** The row that is stored for the parameters [p]: the row they spell, with
    the key replaced when the engine chose it. *)
Definition stored_as (sch : schema) (cols : list string) (p : list value) (r' : row)
  : Prop :=
  r' = new_row sch cols p
  ∨ ∃ i k, pk_index sch = Some i ∧ r' = <[i := VInt k]> (new_row sch cols p).

(** Parameters that [INSERT OR IGNORE] skips on a table with these rows. *)
Definition settled (sch : schema) (cols : list string) (rows : list row)
    (p : list value) : Prop :=
  length p = length cols
  ∧ forallb bindable p = true
  ∧ (violates_notnull sch (new_row sch cols p) = true
     ∨ ∃ i k, pk_index sch = Some i
              ∧ new_row sch cols p !! i = Some (VInt k)
              ∧ has_id i k rows = true).

(** Two databases with the same tables and the same columns. *)
Definition same_schemas (d d' : db) : Prop :=
  ∀ t, tbl_schema <$> d !! t = tbl_schema <$> d' !! t.

(** The keys of the rows of a table, in insertion order. *)
Definition keys (i : nat) (rows : list row) : list Z := omap (row_key i) rows.

(** [d'] has every table of [d], with the same columns and the rows of [d]
    first. *)
Definition grows (d d' : db) : Prop :=
  ∀ t tb, d !! t = Some tb →
          ∃ extra, d' !! t = Some (Table (tbl_schema tb) (tbl_rows tb ++ extra)).

End Store.

Abbreviation db := (gmap string table).

End Sqlite.

(** ** The [sqlite3] connection and the process around it *)

Section Runtime.
Context `{PyFloat} `{!Sqlite.Engine}.
Import Sqlite.

(** The SQL statements of the two scripts. *)
Inductive stmt :=
  | PragmaForeignKeysOn
  | CreateTableIfNotExists (t : string) (sch : schema)
  | SelectCount (t : string)
  | InsertOrIgnore (t : string) (cols : list string)
  | DropTableIfExists (t : string)
  | CreateTableAs (t : string) (query : string).

Inductive event :=
  | EvConnect
  | EvExecute (s : stmt)
  | EvExecuteMany (s : stmt) (n : nat)
  | EvCommit
  | EvClose
  | EvPrint (line : string).

(** An open connection ([disk]: the committed database of the file; [txn]:
    the database as the pending transaction sees it) and what the process has
    done so far. *)
Record state := State {
  disk : db;
  txn : option db;
  foreign_keys : bool;
  trace : list event;
}.

Definition M (A : Type) : Type := state → result A * state.

Global Instance M_ret : MRet M := λ A a st, (Ok a, st).
Global Instance M_bind : MBind M := λ A B f m st,
  match m st with
  | (Ok a, st') => f a st'
  | (Raise e, st') => (Raise e, st')
  end.

Definition act {A} (f : state → result A * state) : M A := f.

Definition raise {A} (e : exn) : M A := λ st, (Raise e, st).

Definition lift {A} (r : result A) : M A := λ st, (r, st).

(** [try: body finally: fin] *)
Definition try_finally {A} (body : M A) (fin : M unit) : M A := λ st,
  match body st with
  | (r, st') =>
      match fin st' with
      | (Ok _, st'') => (r, st'')
      | (Raise e, st'') => (Raise e, st'')
      end
  end.

Definition set_disk (d : db) (st : state) : state :=
  State d (txn st) (foreign_keys st) (trace st).
Definition set_txn (o : option db) (st : state) : state :=
  State (disk st) o (foreign_keys st) (trace st).
Definition set_foreign_keys (b : bool) (st : state) : state :=
  State (disk st) (txn st) b (trace st).

Definition record (e : event) (st : state) : state :=
  State (disk st) (txn st) (foreign_keys st) (trace st ++ [e]).

Definition log (e : event) : M unit := λ st, (Ok (), record e st).

Definition print (line : string) : M unit := log (EvPrint line).

(** The database that the connection reads. *)
Definition view (st : state) : db := default (disk st) (txn st).

(** A write goes to the pending transaction, or straight to the file in
    autocommit mode. *)
Definition write (d : db) (st : state) : state :=
  match txn st with
  | Some _ => set_txn (Some d) st
  | None => set_disk d st
  end.

(** The implicit BEGIN before a data-modifying statement. *)
Definition begin (st : state) : state :=
  match txn st with
  | Some _ => st
  | None => set_txn (Some (disk st)) st
  end.

(** [cur.execute(s)] without parameters; the result is the first column of
    the first row of the result set, if any. *)
Definition execute (s : stmt) : M (option Z) :=
  log (EvExecute s);;
  act (λ st,
    match s with
    | PragmaForeignKeysOn =>
        (* no effect inside a transaction *)
        (Ok None, match txn st with
                  | None => set_foreign_keys true st
                  | Some _ => st
                  end)
    | CreateTableIfNotExists t sch =>
        (Ok None, match view st !! t with
                  | Some _ => st
                  | None => write (<[t := Table sch []]> (view st)) st
                  end)
    | SelectCount t =>
        match count_from t (view st) with
        | Ok n => (Ok (Some (Z.of_nat n)), st)
        | Raise e => (Raise e, st)
        end
    | InsertOrIgnore t cols =>
        match prepare_insert (foreign_keys st) t cols (view st) with
        | Raise e => (Raise e, st)
        | Ok _ =>
            let st1 := begin st in
            match insert_or_ignore (foreign_keys st1) t cols [] (view st1) with
            | Raise e => (Raise e, st1)
            | Ok d => (Ok None, write d st1)
            end
        end
    | DropTableIfExists t => (Ok None, write (delete t (view st)) st)
    | CreateTableAs t q =>
        match view st !! t with
        | Some _ => (Raise (TableExists t), st)
        | None =>
            match sql_select q (view st) with
            | None => (Raise (SqlError q), st)
            | Some tb => (Ok None, write (<[t := tb]> (view st)) st)
            end
        end
    end).

(** [cur.fetchone()[0]] after [cur.execute(s)]. *)
Definition fetch_scalar (s : stmt) : M Z :=
  r ← execute s;
  match r with
  | Some n => mret n
  | None => raise TypeError
  end.

(** [cur.executemany(s, params)] *)
Definition executemany (s : stmt) (params : list (list value)) : M unit :=
  log (EvExecuteMany s (length params));;
  act (λ st,
    match s with
    | InsertOrIgnore t cols =>
        match prepare_insert (foreign_keys st) t cols (view st) with
        | Raise e => (Raise e, st)
        | Ok _ =>
            let st1 := begin st in
            match insert_many (foreign_keys st1) t cols params (view st1) with
            | (r, d) => (r, write d st1)
            end
        end
    | _ => (Raise ProgrammingError, st)
    end).

(** [conn.commit()] *)
Definition commit : M unit :=
  log EvCommit;;
  act (λ st, (Ok (), match txn st with
                     | Some d => set_txn None (set_disk d st)
                     | None => st
                     end)).

(** [conn.close()]: a pending transaction is rolled back. *)
Definition close : M unit :=
  log EvClose;;
  act (λ st, (Ok (), set_txn None st)).

(** The database after [CREATE TABLE IF NOT EXISTS t (sch)]. *)
Definition ensure (t : string) (sch : schema) (d : db) : db :=
  match d !! t with
  | Some _ => d
  | None => <[t := Table sch []]> d
  end.

(** A computation that adds events to the trace, none of which opens or
    closes the connection. *)
Definition quiet {A} (m : M A) : Prop :=
  ∀ st, ∃ evs,
    trace (m st).2 = trace st ++ evs ∧ (EvConnect ∉ evs) ∧ (EvClose ∉ evs).

(** The files the scripts read and write. *)
Abbreviation csv_row := (gmap string string).

Record world := World {
  store_file : option db;                     (* ecom.db *)
  csv_files : gmap string (list csv_row);     (* the CSV files, by path *)
  sql_file : option string;                   (* report.sql *)
}.

(** [sqlite3.connect(str(DB_PATH))]: an absent file is an empty database. *)
Definition connect (w : world) (tr : list event) : state :=
  State (default ∅ (store_file w)) None false (tr ++ [EvConnect]).

Definition persist (w : world) (st : state) : world :=
  World (Some (disk st)) (csv_files w) (sql_file w).

End Runtime.

Abbreviation csv_row := (gmap string string).

(** [for x in l: ...] over a loop-carried value, in the connection monad. *)
Fixpoint for_loop `{PyFloat} {A S : Type} (l : list A) (body : A → S → M S) (acc : S)
  : M S :=
  match l with
  | [] => mret acc
  | x :: l' => acc' ← body x acc; for_loop l' body acc'
  end.

(** [d[k] = v] on a dict kept in insertion order. *)
Fixpoint dict_set {V} (k : string) (v : V) (d : list (string * V)) : list (string * V) :=
  match d with
  | [] => [(k, v)]
  | (k', v') :: d' => if String.eqb k k' then (k, v) :: d' else (k', v') :: dict_set k v d'
  end.

Fixpoint dict_get {V} (k : string) (d : list (string * V)) : option V :=
  match d with
  | [] => None
  | (k', v) :: d' => if String.eqb k k' then Some v else dict_get k d'
  end.

(** ** insert_data.py *)

Module InsertData.
Section Loader.
Context `{PyConv} `{!Sqlite.Engine}.
Import Sqlite.

Definition DATA_FILES : list (string * string) := [
  ("categories", "categories.csv");
  ("products", "products.csv");
  ("customers", "customers.csv");
  ("orders", "orders.csv");
  ("reviews", "reviews.csv")
].

Definition DB_PATH : string := "ecom.db".

Definition to_int (v : option string) : result (option Z) :=
  match v with
  | None => Ok None
  | Some s =>
      if String.eqb s "" then Ok None
      else match py_int s with
           | Some z => Ok (Some z)
           | None => Raise (ValueError_int s)
           end
  end.

Definition to_float (v : option string) : result (option pyfloat) :=
  match v with
  | None => Ok None
  | Some s =>
      if String.eqb s "" then Ok None
      else match py_float s with
           | Some x => Ok (Some x)
           | None => Raise (ValueError_float s)
           end
  end.

(** The SQL value bound for a Python parameter. *)
Definition of_int (o : option Z) : value :=
  match o with Some z => VInt z | None => VNull end.
Definition of_float (o : option pyfloat) : value :=
  match o with
  | Some x => if py_isnan x then VNull else VReal x
  | None => VNull
  end.
Definition of_str (o : option string) : value :=
  match o with Some s => VText s | None => VNull end.

Definition categories_schema : schema := [
  Col "ID" INTEGER true false None;
  Col "category_name" TEXT false true None;
  Col "parent_category_id" INTEGER false false (Some ("categories", "ID"))
].

Definition products_schema : schema := [
  Col "ID" INTEGER true false None;
  Col "name" TEXT false true None;
  Col "category" INTEGER false false (Some ("categories", "ID"));
  Col "price" REAL false false None;
  Col "stock_quantity" INTEGER false false None
].

Definition customers_schema : schema := [
  Col "ID" INTEGER true false None;
  Col "name" TEXT false true None;
  Col "email" TEXT false false None;
  Col "registration_date" TEXT false false None
].

Definition orders_schema : schema := [
  Col "ID" INTEGER true false None;
  Col "customer_id" INTEGER false false (Some ("customers", "ID"));
  Col "product_id" INTEGER false false (Some ("products", "ID"));
  Col "order_date" TEXT false false None;
  Col "quantity" INTEGER false false None;
  Col "total_price" REAL false false None
].

Definition reviews_schema : schema := [
  Col "ID" INTEGER true false None;
  Col "product_id" INTEGER false false (Some ("products", "ID"));
  Col "customer_id" INTEGER false false (Some ("customers", "ID"));
  Col "rating" INTEGER false false None;
  Col "review_text" TEXT false false None;
  Col "review_date" TEXT false false None
].

Definition create_tables : M unit :=
  execute PragmaForeignKeysOn;;
  execute (CreateTableIfNotExists "categories" categories_schema);;
  execute (CreateTableIfNotExists "products" products_schema);;
  execute (CreateTableIfNotExists "customers" customers_schema);;
  execute (CreateTableIfNotExists "orders" orders_schema);;
  execute (CreateTableIfNotExists "reviews" reviews_schema);;
  commit.

(** The parameter tuple of one CSV row, per table; the conversions of a row
    run in the order in which Python evaluates them. *)
Definition categories_params (r : csv_row) : result (list value) :=
  pid ← to_int (r !! "parent_category_id");
  id ← to_int (r !! "ID");
  Ok [of_int id; of_str (r !! "category_name"); of_int pid].

Definition products_params (r : csv_row) : result (list value) :=
  id ← to_int (r !! "ID");
  category ← to_int (r !! "category");
  price ← to_float (r !! "price");
  stock ← to_int (r !! "stock_quantity");
  Ok [of_int id; of_str (r !! "name"); of_int category; of_float price; of_int stock].

Definition customers_params (r : csv_row) : result (list value) :=
  id ← to_int (r !! "ID");
  Ok [of_int id; of_str (r !! "name"); of_str (r !! "email");
      of_str (r !! "registration_date")].

Definition orders_params (r : csv_row) : result (list value) :=
  id ← to_int (r !! "ID");
  customer ← to_int (r !! "customer_id");
  product ← to_int (r !! "product_id");
  quantity ← to_int (r !! "quantity");
  total ← to_float (r !! "total_price");
  Ok [of_int id; of_int customer; of_int product; of_str (r !! "order_date");
      of_int quantity; of_float total].

Definition reviews_params (r : csv_row) : result (list value) :=
  id ← to_int (r !! "ID");
  product ← to_int (r !! "product_id");
  customer ← to_int (r !! "customer_id");
  rating ← to_int (r !! "rating");
  Ok [of_int id; of_int product; of_int customer; of_int rating;
      of_str (r !! "review_text"); of_str (r !! "review_date")].

(** The branch on the table name: the insert statement and its parameters. *)
Definition build (table : string) (rows : list csv_row)
  : result (stmt * list (list value)) :=
  if String.eqb table "categories" then
    params ← for_each categories_params rows;
    Ok (InsertOrIgnore "categories" ["ID"; "category_name"; "parent_category_id"],
        params)
  else if String.eqb table "products" then
    params ← for_each products_params rows;
    Ok (InsertOrIgnore "products"
          ["ID"; "name"; "category"; "price"; "stock_quantity"], params)
  else if String.eqb table "customers" then
    params ← for_each customers_params rows;
    Ok (InsertOrIgnore "customers" ["ID"; "name"; "email"; "registration_date"],
        params)
  else if String.eqb table "orders" then
    params ← for_each orders_params rows;
    Ok (InsertOrIgnore "orders"
          ["ID"; "customer_id"; "product_id"; "order_date"; "quantity"; "total_price"],
        params)
  else if String.eqb table "reviews" then
    params ← for_each reviews_params rows;
    Ok (InsertOrIgnore "reviews"
          ["ID"; "product_id"; "customer_id"; "rating"; "review_text"; "review_date"],
        params)
  else Raise (ValueError_unknown_table table).

Definition warning (file_path table : string) : string :=
  "Warning: " +:+ file_path +:+ " not found, skipping " +:+ table +:+ ".".

(** Insert rows from CSV into [table]. Returns number of rows inserted. *)
Definition insert_csv (files : gmap string (list csv_row)) (table file_path : string)
  : M Z :=
  before ← fetch_scalar (SelectCount table);
  match files !! file_path with
  | None =>
      print (warning file_path table);;
      mret 0
  | Some rows =>
      qp ← lift (build table rows);
      executemany qp.1 qp.2;;
      commit;;
      after ← fetch_scalar (SelectCount table);
      mret (after - before)
  end.

Definition order : list string :=
  ["categories"; "products"; "customers"; "orders"; "reviews"].

Definition summary_line (t : string) (cnt : Z) : string :=
  "- " +:+ t +:+ ": " +:+ pretty cnt +:+ " rows inserted".

Definition ingest (files : gmap string (list csv_row)) (t : string)
    (results : list (string * Z)) : M (list (string * Z)) :=
  match dict_get t DATA_FILES with
  | None => raise TypeError
  | Some file_name =>
      inserted ← insert_csv files t file_name;
      mret (dict_set t inserted results)
  end.

Definition run (files : gmap string (list csv_row)) : M unit :=
  create_tables;;
  results ← for_loop order (ingest files) [];
  print "Insertion summary:";;
  for_loop results (λ tc _, print (summary_line tc.1 tc.2)) ().

(** The result of the process, the files it leaves and what it did. *)
Definition main (w : world) : result unit * world * list event :=
  match try_finally (run (csv_files w)) close (connect w []) with
  | (r, st) => (r, persist w st, trace st)
  end.

End Loader.
End InsertData.

(** ** run_report_to_db.py *)

Module RunReportToDb.
Section Report.
Context `{PyConv} `{!Sqlite.Engine}.
Import Sqlite.

Definition DB_PATH : string := "ecom.db".
Definition SQL_FILE : string := "report.sql".

(** The ASCII characters that [str.strip()] removes. *)
Definition is_space (a : Ascii.ascii) : bool :=
  let n := Ascii.N_of_ascii a in
  ((9 <=? n) && (n <=? 13) || (28 <=? n) && (n <=? 32))%N.

Fixpoint lstrip (s : string) : string :=
  match s with
  | String a s' => if is_space a then lstrip s' else s
  | EmptyString => EmptyString
  end.

Fixpoint rstrip (s : string) : string :=
  match s with
  | String a s' =>
      match rstrip s' with
      | EmptyString => if is_space a then EmptyString else String a EmptyString
      | t => String a t
      end
  | EmptyString => EmptyString
  end.

(** [s.strip()] *)
Definition strip (s : string) : string := rstrip (lstrip s).

(** [s.endswith(";")] *)
Fixpoint endswith_semicolon (s : string) : bool :=
  match s with
  | EmptyString => false
  | String a EmptyString => Ascii.eqb a ";"%char
  | String _ s' => endswith_semicolon s'
  end.

(** [s[:-1]] *)
Fixpoint drop_last (s : string) : string :=
  match s with
  | EmptyString => EmptyString
  | String _ EmptyString => EmptyString
  | String a s' => String a (drop_last s')
  end.

(** The query text that is spliced into the CREATE statement. *)
Definition query_text (file_text : string) : string :=
  let sql_text := strip file_text in
  if endswith_semicolon sql_text then drop_last sql_text else sql_text.

Definition report_line (count : Z) : string :=
  "Inserted " +:+ pretty count +:+ " rows into report_output".

Definition run (sql_text : string) : M unit :=
  execute PragmaForeignKeysOn;;
  execute (DropTableIfExists "report_output");;
  execute (CreateTableAs "report_output" sql_text);;
  commit;;
  count ← fetch_scalar (SelectCount "report_output");
  print (report_line count).

(** The result of the process, the files it leaves and what it did. *)
Definition main (w : world) : result unit * world * list event :=
  match store_file w with
  | None => (Ok (), w, [EvPrint ("Database not found: " +:+ DB_PATH)])
  | Some _ =>
      match sql_file w with
      | None => (Ok (), w, [EvPrint ("SQL file not found: " +:+ SQL_FILE)])
      | Some text =>
          match try_finally (run (query_text text)) close (connect w []) with
          | (r, st) => (r, persist w st, trace st)
          end
      end
  end.

(** Text made of characters that [str.strip()] removes. *)
Fixpoint all_space (s : string) : bool :=
  match s with
  | EmptyString => true
  | String a s' => is_space a && all_space s'
  end.

(** Text that does not start with such a character. *)
Definition no_leading_space (s : string) : bool :=
  match s with
  | EmptyString => true
  | String a _ => negb (is_space a)
  end.

End Report.
End RunReportToDb.

(** ** The five entities *)

Module Entities.
Section Entities.
Context `{PyConv}.
Import Sqlite InsertData.

Inductive entity := Categories | Products | Customers | Orders | Reviews.

Definition entity_name (e : entity) : string :=
  match e with
  | Categories => "categories"
  | Products => "products"
  | Customers => "customers"
  | Orders => "orders"
  | Reviews => "reviews"
  end.

(** The columns [create_tables] declares for the entity's table. *)
Definition entity_schema (e : entity) : schema :=
  match e with
  | Categories => categories_schema
  | Products => products_schema
  | Customers => customers_schema
  | Orders => orders_schema
  | Reviews => reviews_schema
  end.

(** The columns the entity's insert statement names. *)
Definition entity_columns (e : entity) : list string :=
  map col_name (entity_schema e).

Definition entity_params (e : entity) : csv_row → result (list value) :=
  match e with
  | Categories => categories_params
  | Products => products_params
  | Customers => customers_params
  | Orders => orders_params
  | Reviews => reviews_params
  end.

(** The fields that [insert_csv] passes through [to_int] and [to_float]. *)
Definition int_fields (e : entity) : list string :=
  match e with
  | Categories => ["parent_category_id"; "ID"]
  | Products => ["ID"; "category"; "stock_quantity"]
  | Customers => ["ID"]
  | Orders => ["ID"; "customer_id"; "product_id"; "quantity"]
  | Reviews => ["ID"; "product_id"; "customer_id"; "rating"]
  end.

Definition float_fields (e : entity) : list string :=
  match e with
  | Products => ["price"]
  | Orders => ["total_price"]
  | _ => []
  end.

(** A field that is the empty string or absent. *)
Definition blank (r : csv_row) (f : string) : Prop :=
  r !! f = None ∨ r !! f = Some "".

(** A field that holds a non-empty text that is not a number. *)
Definition malformed_int (r : csv_row) (f : string) : Prop :=
  ∃ s, r !! f = Some s ∧ s ≠ "" ∧ py_int s = None.

Definition malformed_float (r : csv_row) (f : string) : Prop :=
  ∃ s, r !! f = Some s ∧ s ≠ "" ∧ py_float s = None.

Definition malformed (e : entity) (r : csv_row) : Prop :=
  (∃ f, f ∈ int_fields e ∧ malformed_int r f) ∨
  (∃ f, f ∈ float_fields e ∧ malformed_float r f).

(** The entity's table is in the database with the columns of
    [create_tables]. *)
Definition initialised (e : entity) (d : db) : Prop :=
  ∃ tb, d !! entity_name e = Some tb ∧ tbl_schema tb = entity_schema e.

(** The value a row holds in the column named [f]. *)
Definition field_of (sch : schema) (f : string) (r : row) : option value :=
  i ← col_index f sch; r !! i.

(** The fields that [insert_csv] binds as they are read. *)
Definition text_fields (e : entity) : list string :=
  match e with
  | Categories => ["category_name"]
  | Products => ["name"]
  | Customers => ["name"; "email"; "registration_date"]
  | Orders => ["order_date"]
  | Reviews => ["review_text"; "review_date"]
  end.

(** The text fields that the entity's table declares NOT NULL. *)
Definition required_fields (e : entity) : list string :=
  match e with
  | Categories => ["category_name"]
  | Products => ["name"]
  | Customers => ["name"]
  | Orders | Reviews => []
  end.

Definition entity_of_name (t : string) : option entity :=
  if String.eqb t "categories" then Some Categories
  else if String.eqb t "products" then Some Products
  else if String.eqb t "customers" then Some Customers
  else if String.eqb t "orders" then Some Orders
  else if String.eqb t "reviews" then Some Reviews
  else None.

End Entities.
End Entities.

(** ** An instance to run the model on *)

Module Demo.

(** Plain decimal literals, on which it agrees with [int()]. *)
Fixpoint digits (s : string) (acc : Z) : option Z :=
  match s with
  | EmptyString => Some acc
  | String a s' =>
      let n := Z.of_N (Ascii.N_of_ascii a) in
      if (48 <=? n) && (n <=? 57) then digits s' (10 * acc + (n - 48)) else None
  end.

Definition demo_int (s : string) : option Z :=
  match s with
  | EmptyString => None
  | String a s' =>
      if Ascii.eqb a "-"%char
      then match s' with EmptyString => None | _ => Z.opp <$> digits s' 0 end
      else digits s 0
  end.

(** Floats stand for themselves as the integer literals [float()] accepts. *)
#[export] Instance demo_float : PyFloat := {| pyfloat := Z |}.

#[export] Instance demo_conv : PyConv := {|
  py_int := demo_int;
  py_float := demo_int;
  py_isnan := λ _, false;
|}.

(** [s] without its prefix [p] *)
Fixpoint after_prefix (p s : string) : option string :=
  match p, s with
  | EmptyString, _ => Some s
  | String a p', String b s' => if Ascii.eqb a b then after_prefix p' s' else None
  | _, _ => None
  end.

(** Only the queries [SELECT * FROM t] are served. *)
Definition demo_select (q : string) (d : Sqlite.db) : option Sqlite.table :=
  match after_prefix "SELECT * FROM " q with
  | Some t =>
      match d !! t with
      | Some tb =>
          Some (Sqlite.Table
                  (map (λ c, Sqlite.Col (Sqlite.col_name c) (Sqlite.col_type c)
                               false false None) (Sqlite.tbl_schema tb))
                  (Sqlite.tbl_rows tb))
      | None => None
      end
  | None => None
  end.

(** [s.lower()] on ASCII text *)
Fixpoint lower (s : string) : string :=
  match s with
  | EmptyString => EmptyString
  | String a s' =>
      let n := Ascii.N_of_ascii a in
      String (if ((65 <=? n) && (n <=? 90))%N then Ascii.ascii_of_N (n + 32) else a)
             (lower s')
  end.

(** A table name counts the rows of that table in whatever letter case it is
    written; no other text is served. *)
Definition demo_count (text : string) (d : Sqlite.db) : result nat :=
  match d !! lower text with
  | Some tb => Ok (length (Sqlite.tbl_rows tb))
  | None => Raise (NoSuchTable text)
  end.

#[export] Instance demo_engine : Sqlite.Engine := {|
  Sqlite.sql_select := demo_select;
  Sqlite.random_rowid := λ _, None;
  Sqlite.sql_count := demo_count;
|}.

(** Sample files. *)
Definition books : csv_row :=
  {[ "ID" := "1"; "category_name" := "Books"; "parent_category_id" := "" ]}.

Definition novel : csv_row :=
  {[ "ID" := "10"; "name" := "Novel"; "category" := "1"; "price" := "9";
     "stock_quantity" := "5" ]}.

Definition unpriced : csv_row :=
  {[ "ID" := "11"; "name" := "Atlas"; "category" := "1"; "price" := "cheap";
     "stock_quantity" := "2" ]}.

Definition unnumbered : csv_row :=
  {[ "ID" := ""; "category_name" := "Books" ]}.

Definition sample_files : gmap string (list csv_row) :=
  {[ "categories.csv" := [books];
     "products.csv" := [novel];
     "unpriced.csv" := [novel; unpriced];
     "unnumbered.csv" := [unnumbered] ]}.

Definition sample_world : world := World None sample_files None.

(** A fresh connection on which [create_tables] has run. *)
Definition ready : state :=
  (InsertData.create_tables (connect sample_world [])).2.

(** The store that a run of the loader leaves, with a query file. *)
Definition loaded (sql : string) : world :=
  World (store_file (InsertData.main sample_world).1.2) sample_files (Some sql).

(** The report of an earlier run. *)
Definition stale : Sqlite.table :=
  Sqlite.Table [Sqlite.Col "note" Sqlite.TEXT false false None]
    [[Sqlite.VText "old"]; [Sqlite.VText "older"]].

(** The store that a run of the loader leaves, with the report of an earlier
    run in it. *)
Definition restocked : Sqlite.db :=
  <["report_output" := stale]>
    (default ∅ (store_file (InsertData.main sample_world).1.2)).

Definition reloaded (sql : string) : world :=
  World (Some restocked) sample_files (Some sql).

(** The products table of the sample files as [demo_select] copies it. *)
Definition products_copy : Sqlite.table :=
  Sqlite.Table
    [Sqlite.Col "ID" Sqlite.INTEGER false false None;
     Sqlite.Col "name" Sqlite.TEXT false false None;
     Sqlite.Col "category" Sqlite.INTEGER false false None;
     Sqlite.Col "price" Sqlite.REAL false false None;
     Sqlite.Col "stock_quantity" Sqlite.INTEGER false false None]
    [[Sqlite.VInt 10; Sqlite.VText "Novel"; Sqlite.VInt 1;
      Sqlite.VReal (9%Z : pyfloat); Sqlite.VInt 5]].

(** A connection to a store that holds a report and no entity table. *)
Definition reported : state :=
  State {[ "report_output" := Sqlite.Table [] [] ]} None false [].

(** A product whose category is not in the store. *)
Definition stray : csv_row :=
  {[ "ID" := "12"; "name" := "Globe"; "category" := "7"; "price" := "30";
     "stock_quantity" := "1" ]}.

(** Files whose products cannot all be loaded. *)
Definition broken_files : gmap string (list csv_row) :=
  {[ "categories.csv" := [books];
     "products.csv" := [novel; stray] ]}.

Definition broken_world : world := World None broken_files None.

(** A product file whose header has no [name] column. *)
Definition nameless : csv_row :=
  {[ "ID" := "20"; "category" := "1"; "price" := "3"; "stock_quantity" := "4" ]}.

Definition nameless_files : gmap string (list csv_row) :=
  {[ "products.csv" := [nameless] ]}.

(** Files in which every row has its id. *)
Definition clean_files : gmap string (list csv_row) :=
  {[ "categories.csv" := [books]; "products.csv" := [novel] ]}.

Definition clean_world : world := World None clean_files None.

(** A category whose id does not fit in 64 bits. *)
Definition oversized : csv_row :=
  {[ "ID" := "99999999999999999999"; "category_name" := "Big" ]}.

Definition oversized_files : gmap string (list csv_row) :=
  {[ "categories.csv" := [oversized] ]}.

(** Neither a store nor any file. *)
Definition empty_world : world := World None ∅ None.

(** The connection once the categories of the sample files are loaded. *)
Definition stocked : state :=
  (InsertData.insert_csv sample_files "categories" "categories.csv" ready).2.

End Demo.


(** ** Properties *)

Section Properties.
Context `{PyConv} `{!Sqlite.Engine}.
Import Sqlite InsertData Entities.

(** *** Running the connection monad *)

Lemma bind_ok {A B} (m : M A) (f : A → M B) st a st' :
  m st = (Ok a, st') → (m ≫= f) st = f a st'.
Proof. intros E. unfold mbind, M_bind. by rewrite E. Qed.

Lemma bind_raise {A B} (m : M A) (f : A → M B) st e st' :
  m st = (Raise e, st') → (m ≫= f) st = (Raise e, st').
Proof. intros E. unfold mbind, M_bind. by rewrite E. Qed.

Lemma view_record e st : view (record e st) = view st.
Proof. reflexivity. Qed.

Lemma fetch_count_ok t n st :
  count_from t (view st) = Ok n →
  fetch_scalar (SelectCount t) st
  = (Ok (Z.of_nat n), record (EvExecute (SelectCount t)) st).
Proof.
  intros E. unfold fetch_scalar, execute, mbind, M_bind, log, act. simpl.
  rewrite view_record, E. reflexivity.
Qed.

Lemma fetch_count_raise t e st :
  count_from t (view st) = Raise e →
  fetch_scalar (SelectCount t) st
  = (Raise e, record (EvExecute (SelectCount t)) st).
Proof.
  intros E. unfold fetch_scalar, execute, mbind, M_bind, log, act. simpl.
  rewrite view_record, E. reflexivity.
Qed.

Lemma count_from_plain t d :
  t ∈ plain_names →
  count_from t d = match d !! t with
                   | Some tb => Ok (length (tbl_rows tb))
                   | None => Raise (NoSuchTable t)
                   end.
Proof. intros Ht. unfold count_from. by rewrite bool_decide_eq_true_2. Qed.

Lemma entity_plain e : entity_name e ∈ plain_names.
Proof. destruct e; unfold plain_names; set_solver. Qed.

Lemma fetch_count_plain t tb st :
  t ∈ plain_names → view st !! t = Some tb →
  fetch_scalar (SelectCount t) st
  = (Ok (Z.of_nat (length (tbl_rows tb))), record (EvExecute (SelectCount t)) st).
Proof.
  intros Ht E. apply fetch_count_ok. by rewrite count_from_plain, E.
Qed.

Lemma fetch_count_some e tb st :
  view st !! entity_name e = Some tb →
  fetch_scalar (SelectCount (entity_name e)) st
  = (Ok (Z.of_nat (length (tbl_rows tb))),
     record (EvExecute (SelectCount (entity_name e))) st).
Proof. apply fetch_count_plain, entity_plain. Qed.

Lemma fetch_count_none e st :
  view st !! entity_name e = None →
  fetch_scalar (SelectCount (entity_name e)) st
  = (Raise (NoSuchTable (entity_name e)),
     record (EvExecute (SelectCount (entity_name e))) st).
Proof.
  intros E. apply fetch_count_raise.
  by rewrite count_from_plain, E by apply entity_plain.
Qed.

(** *** The branch on the table name *)

Lemma build_entity e rows :
  build (entity_name e) rows
  = (params ← for_each (entity_params e) rows;
     Ok (InsertOrIgnore (entity_name e) (entity_columns e), params)).
Proof. destruct e; reflexivity. Qed.

Lemma entity_name_order e : entity_name e ∈ order.
Proof. destruct e; unfold order; set_solver. Qed.

Lemma order_entity t : t ∈ order → ∃ e, t = entity_name e.
Proof.
  unfold order. rewrite !elem_of_cons, elem_of_nil.
  intros [->|[->|[->|[->|[->|[]]]]]];
    [by exists Categories|by exists Products|by exists Customers
    |by exists Orders|by exists Reviews].
Qed.

Lemma build_unknown t rows :
  t ∉ order → build t rows = Raise (ValueError_unknown_table t).
Proof.
  intros Hn. unfold build.
  repeat match goal with
  | |- context [String.eqb t ?s] =>
      destruct (String.eqb_spec t s) as [->|_];
        [exfalso; apply Hn; unfold order; set_solver|]
  end.
  reflexivity.
Qed.

(** *** The schema initializer *)

Lemma execute_create_table t sch st :
  ∃ st',
    execute (CreateTableIfNotExists t sch) st = (Ok None, st')
    ∧ view st' = ensure t sch (view st).
Proof.
  destruct st as [d [dt|] fk tr];
    unfold execute, mbind, M_bind, log, act, record, view, write, ensure,
      set_disk, set_txn; simpl.
  - destruct (dt !! t); eexists; split; reflexivity.
  - destruct (d !! t); eexists; split; reflexivity.
Qed.

Lemma execute_pragma st :
  ∃ st', execute PragmaForeignKeysOn st = (Ok None, st') ∧ view st' = view st.
Proof. destruct st as [d [dt|] fk tr]; eexists; split; reflexivity. Qed.

Lemma commit_view st :
  ∃ st', commit st = (Ok (), st') ∧ view st' = view st.
Proof. destruct st as [d [dt|] fk tr]; eexists; split; reflexivity. Qed.

(** [create_tables] never fails; it adds the tables that are missing, empty,
    and keeps the ones that are there. *)
Lemma create_tables_view st :
  ∃ st',
    create_tables st = (Ok (), st')
    ∧ view st'
      = ensure "reviews" reviews_schema
          (ensure "orders" orders_schema
             (ensure "customers" customers_schema
                (ensure "products" products_schema
                   (ensure "categories" categories_schema (view st))))).
Proof.
  unfold create_tables.
  destruct (execute_pragma st) as (s0 & E0 & V0).
  destruct (execute_create_table "categories" categories_schema s0) as (s1 & E1 & V1).
  destruct (execute_create_table "products" products_schema s1) as (s2 & E2 & V2).
  destruct (execute_create_table "customers" customers_schema s2) as (s3 & E3 & V3).
  destruct (execute_create_table "orders" orders_schema s3) as (s4 & E4 & V4).
  destruct (execute_create_table "reviews" reviews_schema s4) as (s5 & E5 & V5).
  destruct (commit_view s5) as (s6 & E6 & V6).
  exists s6. split.
  - erewrite bind_ok by exact E0. erewrite bind_ok by exact E1.
    erewrite bind_ok by exact E2. erewrite bind_ok by exact E3.
    erewrite bind_ok by exact E4. erewrite bind_ok by exact E5.
    exact E6.
  - by rewrite V6, V5, V4, V3, V2, V1, V0.
Qed.

Lemma ensure_lookup t sch (d : db) t' :
  ensure t sch d !! t'
  = match d !! t' with
    | Some tb => Some tb
    | None => if decide (t = t') then Some (Table sch []) else None
    end.
Proof.
  unfold ensure. destruct (decide (t = t')) as [->|Hne].
  - destruct (d !! t') eqn:E; [by rewrite E|]. by rewrite lookup_insert_eq.
  - destruct (d !! t) eqn:E; [by destruct (d !! t')|].
    rewrite lookup_insert_ne by done. by destruct (d !! t').
Qed.

(** After [create_tables] the table of every entity is in the store; it has
    the declared columns unless a table of that name with other columns was
    there before. *)
Lemma create_tables_initialises e st :
  (∀ tb, view st !! entity_name e = Some tb → tbl_schema tb = entity_schema e) →
  initialised e (view (create_tables st).2).
Proof.
  intros Hold. destruct (create_tables_view st) as (st' & E & V).
  rewrite E. simpl. rewrite V. unfold initialised.
  rewrite !ensure_lookup.
  destruct (view st !! entity_name e) as [tb|] eqn:Ht.
  - exists tb. split; [done|]. by apply Hold.
  - destruct e; simpl; eexists; split; reflexivity.
Qed.

Lemma create_tables_makes_tables e st :
  is_Some (view (create_tables st).2 !! entity_name e).
Proof.
  destruct (create_tables_view st) as (st' & E & V).
  rewrite E. simpl. rewrite V, !ensure_lookup.
  destruct (view st !! entity_name e) as [tb|] eqn:Ht; [by eexists|].
  destruct e; simpl; by eexists.
Qed.

(** C6: when the source file of an entity is absent (and the entity's table
    is in the store, as [create_tables] leaves it), [insert_csv] prints the
    line "Warning: <file> not found, skipping <table>.", returns 0 without
    raising, and leaves the committed database, the pending transaction and
    the connection settings as they were; the only statement it issues is
    the row count. *)
Theorem C6_missing_file_is_skipped
    (files : gmap string (list csv_row)) (e : entity) (file_path : string)
    (st : state) (tb : Sqlite.table) :
  view st !! entity_name e = Some tb →
  files !! file_path = None →
  insert_csv files (entity_name e) file_path st
  = (Ok 0,
     State (disk st) (txn st) (foreign_keys st)
       (trace st ++ [EvExecute (SelectCount (entity_name e));
                     EvPrint ("Warning: " +:+ file_path +:+ " not found, skipping "
                              +:+ entity_name e +:+ ".")])).
Proof.
  intros Ht Hf. unfold insert_csv.
  erewrite bind_ok by (by apply fetch_count_some).
  rewrite Hf. unfold mbind, M_bind, print, log, record, mret, M_ret. simpl.
  by rewrite <- app_assoc.
Qed.

(** An event is not in an explicit list of other events. *)
Ltac not_listed :=
  let Hin := fresh "Hin" in
  intros Hin;
  repeat (apply elem_of_cons in Hin as [Hin|Hin]; [discriminate Hin|]);
  by apply elem_of_nil in Hin.

(** C10 (as amended): for a table name outside the five entities,
    [insert_csv] issues the row count and nothing else, and leaves the
    committed database, the pending transaction and the connection settings
    as they were. It raises the store's error when the row count fails,
    raises [ValueError] ("Unknown table") when the row count succeeds and the
    source file exists, and returns 0 after printing the line
    "Warning: <file> not found, skipping <table>." when the row count
    succeeds and the source file does not exist. For [report_output], the one
    name outside the five entities that the scripts give to a table, the row
    count succeeds exactly when the table is in the store. *)
Theorem C10_unknown_table_inserts_nothing
    (files : gmap string (list csv_row)) (table file_path : string) (st : state) :
  table ∉ order →
  insert_csv files table file_path st
  = (match count_from table (view st), files !! file_path with
     | Raise e, _ => Raise e
     | Ok _, Some _ => Raise (ValueError_unknown_table table)
     | Ok _, None => Ok 0
     end,
     State (disk st) (txn st) (foreign_keys st)
       (trace st
        ++ match count_from table (view st), files !! file_path with
           | Ok _, None =>
               [EvExecute (SelectCount table);
                EvPrint ("Warning: " +:+ file_path +:+ " not found, skipping "
                         +:+ table +:+ ".")]
           | _, _ => [EvExecute (SelectCount table)]
           end))
  ∧ count_from "report_output" (view st)
    = match view st !! "report_output" with
      | Some tb => Ok (length (tbl_rows tb))
      | None => Raise (NoSuchTable "report_output")
      end.
Proof.
  intros Hn. split; [|reflexivity]. unfold insert_csv.
  destruct (count_from table (view st)) as [n|e] eqn:Ht.
  - erewrite bind_ok by (by apply fetch_count_ok).
    destruct (files !! file_path) as [rows|] eqn:Hf.
    + by rewrite build_unknown.
    + unfold mbind, M_bind, print, log, record, mret, M_ret. simpl.
      by rewrite <- app_assoc.
  - by erewrite bind_raise by (by apply fetch_count_raise).
Qed.

(** *** Type conversion *)



Lemma to_int_malformed (r : csv_row) f :
  malformed_int r f → ∃ s, to_int (r !! f) = Raise (ValueError_int s).
Proof.
  intros (s & -> & Hs & Hp). exists s. unfold to_int.
  destruct (String.eqb_spec s ""); [done|]. by rewrite Hp.
Qed.

Lemma to_float_malformed (r : csv_row) f :
  malformed_float r f → ∃ s, to_float (r !! f) = Raise (ValueError_float s).
Proof.
  intros (s & -> & Hs & Hp). exists s. unfold to_float.
  destruct (String.eqb_spec s ""); [done|]. by rewrite Hp.
Qed.

Lemma to_int_raise v err :
  to_int v = Raise err → is_type_conversion_error err = true.
Proof.
  unfold to_int. destruct v as [s|]; [|done].
  destruct (String.eqb s ""); [done|]. destruct (py_int s); [done|].
  by intros [= <-].
Qed.

Lemma to_float_raise v err :
  to_float v = Raise err → is_type_conversion_error err = true.
Proof.
  unfold to_float. destruct v as [s|]; [|done].
  destruct (String.eqb s ""); [done|]. destruct (py_float s); [done|].
  by intros [= <-].
Qed.

(** Split the conversions of a parameter tuple, first to last. *)
Ltac conversions :=
  unfold categories_params, products_params, customers_params, orders_params,
    reviews_params, mbind, result_bind;
  repeat match goal with
  | |- context [match to_int ?v with _ => _ end] =>
      let E := fresh "E" in destruct (to_int v) eqn:E
  | |- context [match to_float ?v with _ => _ end] =>
      let E := fresh "E" in destruct (to_float v) eqn:E
  end.

Lemma entity_params_raise e r err :
  entity_params e r = Raise err → is_type_conversion_error err = true.
Proof.
  destruct e; simpl; conversions; intros [= <-] || intros [=];
    eauto using to_int_raise, to_float_raise.
Qed.

Lemma entity_params_malformed e r :
  malformed e r → ∃ err, entity_params e r = Raise err.
Proof.
  intros [(f & Hf & Hm)|(f & Hf & Hm)].
  - apply to_int_malformed in Hm as [s Hs].
    destruct e; simpl in Hf; rewrite ?elem_of_cons, elem_of_nil in Hf;
      simpl; conversions; eauto; exfalso;
      repeat (destruct Hf as [->|Hf]; [congruence|]); done.
  - apply to_float_malformed in Hm as [s Hs].
    destruct e; simpl in Hf; rewrite ?elem_of_cons, ?elem_of_nil in Hf;
      try done;
      simpl; conversions; eauto; exfalso;
      repeat (destruct Hf as [->|Hf]; [congruence|]); done.
Qed.

Lemma for_each_raise_inv {A B} (f : A → result B) l err :
  for_each f l = Raise err → ∃ x, x ∈ l ∧ f x = Raise err.
Proof.
  induction l as [|x l IH]; simpl; [done|].
  destruct (f x) eqn:Ex.
  - destruct (for_each f l); [done|]. intros [= ->].
    destruct IH as (y & Hy & Ey); [done|]. exists y. split; [set_solver|done].
  - intros [= ->]. exists x. split; [set_solver|done].
Qed.

Lemma for_each_ok_inv {A B} (f : A → result B) l ys :
  for_each f l = Ok ys → Forall2 (λ x y, f x = Ok y) l ys.
Proof.
  revert ys. induction l as [|x l IH]; simpl; intros ys.
  - intros [= <-]. constructor.
  - destruct (f x) eqn:Ex; [|done]. destruct (for_each f l); [|done].
    intros [= <-]. constructor; auto.
Qed.

Lemma for_each_some_raise {A B} (f : A → result B) l x e :
  x ∈ l → f x = Raise e → ∃ err, for_each f l = Raise err.
Proof.
  intros Hx Ex. destruct (for_each f l) as [ys|err] eqn:E; [|eauto].
  apply for_each_ok_inv in E.
  apply list_elem_of_lookup in Hx as [i Hi].
  destruct (Forall2_lookup_l _ _ _ _ _ E Hi) as (y & _ & Hy). congruence.
Qed.

(** C3: when some row of an entity's batch holds, in a numeric field, a
    non-empty text that is not a number (one that [int()] rejects in a field
    converted by [to_int], or [float()] in a field converted by [to_float]),
    and the entity's table is in the store as [create_tables] leaves it,
    [insert_csv] raises a type-conversion error before any insert is issued:
    the only statement run is the initial row count, and the committed
    database and the pending transaction are as they were. *)
Theorem C3_malformed_number_fails_batch
    (files : gmap string (list csv_row)) (e : entity) (file_path : string)
    (rows : list csv_row) (st : state) (tb : table) :
  view st !! entity_name e = Some tb →
  files !! file_path = Some rows →
  (∃ r, r ∈ rows ∧ malformed e r) →
  ∃ err,
    insert_csv files (entity_name e) file_path st
    = (Raise err,
       State (disk st) (txn st) (foreign_keys st)
         (trace st ++ [EvExecute (SelectCount (entity_name e))]))
    ∧ is_type_conversion_error err = true.
Proof.
  intros Ht Hf (r & Hr & Hm). unfold insert_csv.
  erewrite bind_ok by (by apply fetch_count_some).
  rewrite Hf, build_entity.
  destruct (entity_params_malformed e r Hm) as [e0 He0].
  destruct (for_each_some_raise _ _ _ _ Hr He0) as [err Herr].
  exists err. rewrite Herr. split; [reflexivity|].
  apply for_each_raise_inv in Herr as (x & _ & Ex).
  by apply entity_params_raise in Ex.
Qed.

(** *** Statements in autocommit mode *)

Lemma execute_pragma_idle d fk tr :
  execute PragmaForeignKeysOn (State d None fk tr)
  = (Ok None, State d None true (tr ++ [EvExecute PragmaForeignKeysOn])).
Proof. reflexivity. Qed.

Lemma execute_drop_idle t d fk tr :
  execute (DropTableIfExists t) (State d None fk tr)
  = (Ok None, State (delete t d) None fk (tr ++ [EvExecute (DropTableIfExists t)])).
Proof. reflexivity. Qed.

Lemma execute_create_as_idle t q d fk tr :
  d !! t = None →
  execute (CreateTableAs t q) (State d None fk tr)
  = match sql_select q d with
    | Some tb =>
        (Ok None, State (<[t := tb]> d) None fk (tr ++ [EvExecute (CreateTableAs t q)]))
    | None =>
        (Raise (SqlError q), State d None fk (tr ++ [EvExecute (CreateTableAs t q)]))
    end.
Proof.
  intros Ht. unfold execute, mbind, M_bind, log, act, record, view. simpl.
  rewrite Ht. by destruct (sql_select q d).
Qed.

Lemma execute_create_table_idle t sch d fk tr :
  execute (CreateTableIfNotExists t sch) (State d None fk tr)
  = (Ok None,
     State (match d !! t with Some _ => d | None => <[t := Table sch []]> d end)
       None fk (tr ++ [EvExecute (CreateTableIfNotExists t sch)])).
Proof.
  unfold execute, mbind, M_bind, log, act, record, view. simpl.
  by destruct (d !! t).
Qed.

Lemma commit_idle d fk tr :
  commit (State d None fk tr) = (Ok (), State d None fk (tr ++ [EvCommit])).
Proof. reflexivity. Qed.

Lemma commit_pending d d' fk tr :
  commit (State d (Some d') fk tr) = (Ok (), State d' None fk (tr ++ [EvCommit])).
Proof. reflexivity. Qed.

(** *** The report materializer *)

Lemma report_run_outcome (q : string) (d : db) (fk : bool) (tr : list event) :
  RunReportToDb.run q (State d None fk tr)
  = match sql_select q (delete "report_output" d) with
    | Some tb =>
        (Ok (),
         State (<["report_output" := tb]> d) None true
           (tr ++ [EvExecute PragmaForeignKeysOn;
                   EvExecute (DropTableIfExists "report_output");
                   EvExecute (CreateTableAs "report_output" q);
                   EvCommit;
                   EvExecute (SelectCount "report_output");
                   EvPrint ("Inserted " +:+ pretty (Z.of_nat (length (tbl_rows tb)))
                            +:+ " rows into report_output")]))
    | None =>
        (Raise (SqlError q),
         State (delete "report_output" d) None true
           (tr ++ [EvExecute PragmaForeignKeysOn;
                   EvExecute (DropTableIfExists "report_output");
                   EvExecute (CreateTableAs "report_output" q)]))
    end.
Proof.
  unfold RunReportToDb.run.
  erewrite bind_ok by apply execute_pragma_idle.
  erewrite bind_ok by apply execute_drop_idle.
  pose proof (execute_create_as_idle "report_output" q
                (delete "report_output" d) true
                ((tr ++ [EvExecute PragmaForeignKeysOn]) ++
                 [EvExecute (DropTableIfExists "report_output")])
                (lookup_delete_eq d "report_output")) as Hc.
  destruct (sql_select q (delete "report_output" d)) as [tb|].
  - erewrite bind_ok by apply Hc.
    erewrite bind_ok by apply commit_idle.
    erewrite bind_ok
      by (apply fetch_count_plain with (tb := tb);
          [unfold plain_names; set_solver|apply lookup_insert_eq]).
    unfold print, log, record. simpl.
    rewrite insert_delete_eq, <- !app_assoc. reflexivity.
  - erewrite bind_raise by apply Hc.
    rewrite <- !app_assoc. reflexivity.
Qed.


(** C2: when the create step fails, the drop has already run (it is the
    statement just before the create in the trace of the run), the error is
    returned to the caller, and the store that is left on disk has no table
    [report_output]; the other tables are as they were. *)
Theorem C2_failed_create_leaves_no_report
    (w : world) (d : db) (text : string) :
  store_file w = Some d →
  sql_file w = Some text →
  sql_select (RunReportToDb.query_text text) (delete "report_output" d) = None →
  ∃ d',
    RunReportToDb.main w
    = (Raise (SqlError (RunReportToDb.query_text text)),
       World (Some d') (csv_files w) (sql_file w),
       [EvConnect;
        EvExecute PragmaForeignKeysOn;
        EvExecute (DropTableIfExists "report_output");
        EvExecute (CreateTableAs "report_output" (RunReportToDb.query_text text));
        EvClose])
    ∧ d' !! "report_output" = None
    ∧ ∀ t, t ≠ "report_output" → d' !! t = d !! t.
Proof.
  intros Hs Hq Hsel. unfold RunReportToDb.main, try_finally, connect, persist.
  rewrite Hs, Hq. simpl. rewrite report_run_outcome, Hsel.
  exists (delete "report_output" d). split; [reflexivity|]. split.
  - apply lookup_delete_eq.
  - intros t Ht. by apply lookup_delete_ne.
Qed.

Lemma drop_last_semicolon (s : string) :
  RunReportToDb.endswith_semicolon s = true →
  s = RunReportToDb.drop_last s +:+ ";".
Proof.
  induction s as [|a s IH]; [done|].
  destruct s as [|b s].
  - simpl. destruct (Ascii.eqb_spec a ";"%char); [by subst|done].
  - intros E.
    change (RunReportToDb.endswith_semicolon (String b s) = true) in E.
    apply IH in E.
    change (String a (String b s)
            = String a (RunReportToDb.drop_last (String b s) +:+ ";")).
    by rewrite <- E.
Qed.

(** C5: the query of a materializer run is the stripped text of the file
    without one trailing [;]. The run returns normally exactly when the
    engine accepts this query on the store without its old [report_output];
    then, whether or not the store held a [report_output] before, the store
    that is left holds under [report_output] the table the engine builds from
    the query's result set, with every other table untouched, and the line
    printed is "Inserted <n> rows into report_output" for the number [n] of
    rows of the new table. *)
Theorem C5_successful_materialization
    (w : world) (d : db) (text : string) :
  store_file w = Some d →
  sql_file w = Some text →
  ∃ q,
    q = RunReportToDb.query_text text
    ∧ (RunReportToDb.strip text = q +:+ ";"
       ∨ (RunReportToDb.strip text = q
          ∧ RunReportToDb.endswith_semicolon q = false))
    ∧ ((RunReportToDb.main w).1.1 = Ok ()
       ↔ is_Some (sql_select q (delete "report_output" d)))
    ∧ ∀ tb,
        sql_select q (delete "report_output" d) = Some tb →
        RunReportToDb.main w
        = (Ok (),
           World (Some (<["report_output" := tb]> d)) (csv_files w) (sql_file w),
           [EvConnect;
            EvExecute PragmaForeignKeysOn;
            EvExecute (DropTableIfExists "report_output");
            EvExecute (CreateTableAs "report_output" q);
            EvCommit;
            EvExecute (SelectCount "report_output");
            EvPrint ("Inserted " +:+ pretty (Z.of_nat (length (tbl_rows tb)))
                     +:+ " rows into report_output");
            EvClose]).
Proof.
  intros Hs Hq. exists (RunReportToDb.query_text text).
  split; [reflexivity|]. split; [|split].
  - unfold RunReportToDb.query_text.
    destruct (RunReportToDb.endswith_semicolon (RunReportToDb.strip text)) eqn:E.
    + left. by apply drop_last_semicolon.
    + right. done.
  - unfold RunReportToDb.main, try_finally, connect, persist.
    rewrite Hs, Hq. simpl. rewrite report_run_outcome.
    destruct (sql_select _ _) as [tb|] eqn:Hsel; simpl.
    + split; [by eexists|done].
    + split; [done|]. by intros [? ?].
  - intros tb Hsel. unfold RunReportToDb.main, try_finally, connect, persist.
    rewrite Hs, Hq. simpl. rewrite report_run_outcome, Hsel. reflexivity.
Qed.

(** *** What a computation adds to the trace *)

Lemma quiet_ret {A} (a : A) : quiet (mret a).
Proof. intros st. exists []. rewrite app_nil_r. split; [done|]. split; apply not_elem_of_nil. Qed.

Lemma quiet_raise {A} e : quiet (raise (A := A) e).
Proof. intros st. exists []. rewrite app_nil_r. split; [done|]. split; apply not_elem_of_nil. Qed.

Lemma quiet_lift {A} (r : result A) : quiet (lift r).
Proof. intros st. exists []. rewrite app_nil_r. split; [done|]. split; apply not_elem_of_nil. Qed.

Lemma quiet_bind {A B} (m : M A) (f : A → M B) :
  quiet m → (∀ a, quiet (f a)) → quiet (m ≫= f).
Proof.
  intros Hm Hf st. destruct (Hm st) as (evs & E & Hc & Hd).
  unfold mbind, M_bind. destruct (m st) as [[a|e] st1]; simpl in E.
  - destruct (Hf a st1) as (evs' & E' & Hc' & Hd').
    exists (evs ++ evs'). rewrite E', E, app_assoc.
    split; [done|]. rewrite !not_elem_of_app. done.
  - exists evs. done.
Qed.

Lemma execute_trace s st : trace (execute s st).2 = trace st ++ [EvExecute s].
Proof.
  destruct st as [d [t|] fk tr]; destruct s;
    unfold execute, mbind, M_bind, log, act, record, view, write, begin,
      set_disk, set_txn, set_foreign_keys; simpl;
    repeat case_match; reflexivity.
Qed.

Lemma executemany_trace s ps st :
  trace (executemany s ps st).2 = trace st ++ [EvExecuteMany s (length ps)].
Proof.
  destruct st as [d [t|] fk tr]; destruct s;
    unfold executemany, mbind, M_bind, log, act, record, view, write, begin,
      set_disk, set_txn, set_foreign_keys; simpl;
    repeat case_match; reflexivity.
Qed.

Lemma quiet_one {A} (m : M A) ev :
  (∀ st, trace (m st).2 = trace st ++ [ev]) →
  ev ≠ EvConnect → ev ≠ EvClose → quiet m.
Proof.
  intros E Hc Hd st. exists [ev]. split; [apply E|].
  split; intros Hin; apply list_elem_of_singleton in Hin; congruence.
Qed.

Lemma quiet_execute s : quiet (execute s).
Proof. by apply quiet_one with (ev := EvExecute s); [apply execute_trace| |]. Qed.

Lemma quiet_executemany s ps : quiet (executemany s ps).
Proof.
  by apply quiet_one with (ev := EvExecuteMany s (length ps));
    [apply executemany_trace| |].
Qed.

Lemma quiet_commit : quiet commit.
Proof.
  apply quiet_one with (ev := EvCommit); [|done..].
  intros [d [t|] fk tr]; reflexivity.
Qed.

Lemma quiet_print line : quiet (print line).
Proof. by apply quiet_one with (ev := EvPrint line). Qed.

Lemma quiet_fetch_scalar s : quiet (fetch_scalar s).
Proof.
  apply quiet_bind; [apply quiet_execute|].
  intros [n|]; [apply quiet_ret|apply quiet_raise].
Qed.

Lemma quiet_for_loop {A S} (l : list A) (body : A → S → M S) acc :
  (∀ x s, quiet (body x s)) → quiet (for_loop l body acc).
Proof.
  intros Hb. revert acc. induction l as [|x l IH]; intros acc; simpl.
  - apply quiet_ret.
  - apply quiet_bind; auto.
Qed.

Lemma quiet_insert_csv files table file_path :
  quiet (insert_csv files table file_path).
Proof.
  unfold insert_csv. apply quiet_bind; [apply quiet_fetch_scalar|]. intros before.
  destruct (files !! file_path) as [rows|].
  - apply quiet_bind; [apply quiet_lift|]. intros qp.
    apply quiet_bind; [apply quiet_executemany|]. intros _.
    apply quiet_bind; [apply quiet_commit|]. intros _.
    apply quiet_bind; [apply quiet_fetch_scalar|]. intros after.
    apply quiet_ret.
  - apply quiet_bind; [apply quiet_print|]. intros _. apply quiet_ret.
Qed.

Lemma quiet_create_tables : quiet create_tables.
Proof.
  unfold create_tables.
  repeat (apply quiet_bind; [apply quiet_execute|intros _]).
  apply quiet_commit.
Qed.

Lemma quiet_loader_run files : quiet (InsertData.run files).
Proof.
  unfold InsertData.run.
  apply quiet_bind; [apply quiet_create_tables|]. intros _.
  apply quiet_bind.
  - apply quiet_for_loop. intros t results. unfold ingest.
    destruct (dict_get t DATA_FILES); [|apply quiet_raise].
    apply quiet_bind; [apply quiet_insert_csv|]. intros n. apply quiet_ret.
  - intros results. apply quiet_bind; [apply quiet_print|]. intros _.
    apply quiet_for_loop. intros tc _. apply quiet_print.
Qed.

Lemma quiet_report_run q : quiet (RunReportToDb.run q).
Proof.
  unfold RunReportToDb.run.
  repeat (apply quiet_bind; [apply quiet_execute|intros _]).
  apply quiet_bind; [apply quiet_commit|]. intros _.
  apply quiet_bind; [apply quiet_fetch_scalar|]. intros n. apply quiet_print.
Qed.

Lemma try_finally_close_trace {A} (body : M A) w :
  quiet body →
  ∃ evs,
    trace (try_finally body close (connect w [])).2 = EvConnect :: (evs ++ [EvClose])
    ∧ (EvConnect ∉ evs) ∧ (EvClose ∉ evs).
Proof.
  intros Hq. destruct (Hq (connect w [])) as (evs & E & Hc & Hd).
  exists evs. split; [|done].
  unfold try_finally. destruct (body (connect w [])) as [r st]. simpl in *.
  by rewrite E.
Qed.

(** C9: in both utilities, whatever the run does after the connection is
    acquired and whether it returns or raises, its trace opens the connection
    once, first, and closes it once, last. The materializer's early exits
    acquire no connection. *)
Theorem C9_connection_released_exactly_once (w : world) :
  (∃ evs,
     (InsertData.main w).2 = EvConnect :: (evs ++ [EvClose])
     ∧ (EvConnect ∉ evs) ∧ (EvClose ∉ evs))
  ∧ match store_file w, sql_file w with
    | Some _, Some _ =>
        ∃ evs,
          (RunReportToDb.main w).2 = EvConnect :: (evs ++ [EvClose])
          ∧ (EvConnect ∉ evs) ∧ (EvClose ∉ evs)
    | _, _ => ∃ line, (RunReportToDb.main w).2 = [EvPrint line]
    end.
Proof.
  split.
  - destruct (try_finally_close_trace (InsertData.run (csv_files w)) w
                (quiet_loader_run _)) as (evs & E & Hc).
    exists evs. split; [|done]. unfold InsertData.main.
    by destruct (try_finally _ _ _).
  - unfold RunReportToDb.main.
    destruct (store_file w) as [d|]; [|eauto].
    destruct (sql_file w) as [text|]; [|eauto].
    destruct (try_finally_close_trace
                (RunReportToDb.run (RunReportToDb.query_text text)) w
                (quiet_report_run _)) as (evs & E & Hc).
    exists evs. split; [|done]. by destruct (try_finally _ _ _).
Qed.

(** *** The loader's entry point *)

Lemma for_loop_cons {A S} (x : A) l (body : A → S → M S) acc st :
  for_loop (x :: l) body acc st
  = match body x acc st with
    | (Ok a, st') => for_loop l body a st'
    | (Raise e, st') => (Raise e, st')
    end.
Proof. reflexivity. Qed.

Lemma ingest_step files t file_name results st :
  dict_get t DATA_FILES = Some file_name →
  ingest files t results st
  = match insert_csv files t file_name st with
    | (Ok n, st') => (Ok (dict_set t n results), st')
    | (Raise e, st') => (Raise e, st')
    end.
Proof.
  intros E. unfold ingest. rewrite E. unfold mbind, M_bind.
  by destruct (insert_csv files t file_name st) as [[n|e] st'].
Qed.

(** The loop of [main], one call of [insert_csv] after the other. *)
Lemma loader_loop files st :
  for_loop order (ingest files) [] st
  = match insert_csv files "categories" "categories.csv" st with
    | (Raise e, s) => (Raise e, s)
    | (Ok n1, st1) =>
    match insert_csv files "products" "products.csv" st1 with
    | (Raise e, s) => (Raise e, s)
    | (Ok n2, st2) =>
    match insert_csv files "customers" "customers.csv" st2 with
    | (Raise e, s) => (Raise e, s)
    | (Ok n3, st3) =>
    match insert_csv files "orders" "orders.csv" st3 with
    | (Raise e, s) => (Raise e, s)
    | (Ok n4, st4) =>
    match insert_csv files "reviews" "reviews.csv" st4 with
    | (Raise e, s) => (Raise e, s)
    | (Ok n5, st5) =>
        (Ok [("categories", n1); ("products", n2); ("customers", n3);
             ("orders", n4); ("reviews", n5)], st5)
    end end end end end.
Proof.
  unfold order.
  rewrite for_loop_cons, (ingest_step _ _ "categories.csv") by reflexivity.
  destruct (insert_csv files "categories" _ st) as [[n1|e] st1]; [|done].
  rewrite for_loop_cons, (ingest_step _ _ "products.csv") by reflexivity.
  destruct (insert_csv files "products" _ st1) as [[n2|e] st2]; [|done].
  rewrite for_loop_cons, (ingest_step _ _ "customers.csv") by reflexivity.
  destruct (insert_csv files "customers" _ st2) as [[n3|e] st3]; [|done].
  rewrite for_loop_cons, (ingest_step _ _ "orders.csv") by reflexivity.
  destruct (insert_csv files "orders" _ st3) as [[n4|e] st4]; [|done].
  rewrite for_loop_cons, (ingest_step _ _ "reviews.csv") by reflexivity.
  destruct (insert_csv files "reviews" _ st4) as [[n5|e] st5]; [|done].
  reflexivity.
Qed.

(** C8: a run of the loader that returns normally has initialised the
    schema and then called [insert_csv] for categories, products, customers,
    orders and reviews, in this order, each on the store the previous call
    left; it ends by printing the line "Insertion summary:" and, in the same
    order, one line "- <entity>: <count> rows inserted" with the count each
    call returned, and closing the connection. *)
Theorem C8_loader_ingests_in_dependency_order (w w' : world) (tr : list event) :
  InsertData.main w = (Ok (), w', tr) →
  ∃ st0 n1 st1 n2 st2 n3 st3 n4 st4 n5 st5,
    create_tables (connect w []) = (Ok (), st0)
    ∧ insert_csv (csv_files w) "categories" "categories.csv" st0 = (Ok n1, st1)
    ∧ insert_csv (csv_files w) "products" "products.csv" st1 = (Ok n2, st2)
    ∧ insert_csv (csv_files w) "customers" "customers.csv" st2 = (Ok n3, st3)
    ∧ insert_csv (csv_files w) "orders" "orders.csv" st3 = (Ok n4, st4)
    ∧ insert_csv (csv_files w) "reviews" "reviews.csv" st4 = (Ok n5, st5)
    ∧ tr = trace st5
           ++ [EvPrint "Insertion summary:";
               EvPrint ("- categories: " +:+ pretty n1 +:+ " rows inserted");
               EvPrint ("- products: " +:+ pretty n2 +:+ " rows inserted");
               EvPrint ("- customers: " +:+ pretty n3 +:+ " rows inserted");
               EvPrint ("- orders: " +:+ pretty n4 +:+ " rows inserted");
               EvPrint ("- reviews: " +:+ pretty n5 +:+ " rows inserted");
               EvClose]
    ∧ w' = World (Some (disk st5)) (csv_files w) (sql_file w).
Proof.
  unfold InsertData.main, try_finally, InsertData.run.
  unfold mbind at 1. unfold M_bind at 1.
  destruct (create_tables (connect w [])) as [[[]|e0] st0] eqn:E0;
    [|by intros [=]].
  unfold mbind at 1. unfold M_bind at 1. rewrite loader_loop.
  destruct (insert_csv _ "categories" _ st0) as [[n1|e] st1] eqn:E1; [|by intros [=]].
  destruct (insert_csv _ "products" _ st1) as [[n2|e] st2] eqn:E2; [|by intros [=]].
  destruct (insert_csv _ "customers" _ st2) as [[n3|e] st3] eqn:E3; [|by intros [=]].
  destruct (insert_csv _ "orders" _ st3) as [[n4|e] st4] eqn:E4; [|by intros [=]].
  destruct (insert_csv _ "reviews" _ st4) as [[n5|e] st5] eqn:E5; [|by intros [=]].
  intros [= <- <-].
  exists st0, n1, st1, n2, st2, n3, st3, n4, st4, n5, st5.
  repeat (split; [done|]). split; [|reflexivity].
  simpl. by rewrite <- !app_assoc.
Qed.

(** *** Insert if absent *)

Lemma has_id_app i k rows extra :
  has_id i k (rows ++ extra) = has_id i k rows || has_id i k extra.
Proof. unfold has_id. apply existsb_app. Qed.

Lemma assign_key_none sch rows r :
  assign_key sch rows r = Ok None →
  ∃ i k, pk_index sch = Some i ∧ r !! i = Some (VInt k) ∧ has_id i k rows = true.
Proof.
  unfold assign_key. destruct (pk_index sch) as [i|]; [|done].
  destruct (r !! i) as [[|k|x|s]|] eqn:Er; try done.
  - repeat case_match; done.
  - destruct (has_id i k rows) eqn:Eh; [|done]. intros _. by exists i, k.
Qed.

Lemma assign_key_some sch rows r r' :
  assign_key sch rows r = Ok (Some r') →
  r' = r ∨ ∃ i k, pk_index sch = Some i ∧ r' = <[i := VInt k]> r.
Proof.
  unfold assign_key. destruct (pk_index sch) as [i|]; [|intros [= <-]; by left].
  destruct (r !! i) as [[|k|x|s]|] eqn:Er; try done.
  - repeat case_match; intros [= <-]; right; eauto.
  - destruct (has_id i k rows); [done|]. intros [= <-]. by left.
Qed.

Lemma assign_key_given sch rows r r' i k :
  pk_index sch = Some i → r !! i = Some (VInt k) →
  assign_key sch rows r = Ok (Some r') →
  r' = r ∧ has_id i k rows = false.
Proof.
  unfold assign_key. intros -> ->.
  destruct (has_id i k rows); [done|]. by intros [= <-].
Qed.

(** One insert that succeeds either skips the row or appends one row. *)
Lemma insert_or_ignore_ok fk t cols p (d d' : db) tb :
  d !! t = Some tb →
  insert_or_ignore fk t cols p d = Ok d' →
  length p = length cols
  ∧ forallb bindable p = true
  ∧ ((d' = d
      ∧ (violates_notnull (tbl_schema tb) (new_row (tbl_schema tb) cols p) = true
         ∨ assign_key (tbl_schema tb) (tbl_rows tb)
             (new_row (tbl_schema tb) cols p) = Ok None))
     ∨ ∃ r',
         d' = <[t := Table (tbl_schema tb) (tbl_rows tb ++ [r'])]> d
         ∧ assign_key (tbl_schema tb) (tbl_rows tb)
             (new_row (tbl_schema tb) cols p) = Ok (Some r')).
Proof.
  intros Ht. unfold insert_or_ignore. rewrite Ht.
  destruct (length p =? length cols)%nat eqn:El; simpl; [|done].
  apply Nat.eqb_eq in El.
  destruct (forallb bindable p) eqn:Eb; simpl; [|done].
  destruct (violates_notnull _ _) eqn:Ev.
  - intros [= <-]. repeat (split; [done|]). left. auto.
  - destruct (assign_key _ _ _) as [[r'|]|e] eqn:Ea; [| |done].
    + destruct (fk && _); [done|]. intros [= <-].
      repeat (split; [done|]). right. eauto.
    + intros [= <-]. repeat (split; [done|]). left. auto.
Qed.

Lemma insert_or_ignore_settled fk t cols p (d : db) tb :
  d !! t = Some tb →
  settled (tbl_schema tb) cols (tbl_rows tb) p →
  insert_or_ignore fk t cols p d = Ok d.
Proof.
  intros Ht (El & Eb & Hs). unfold insert_or_ignore. rewrite Ht, Eb.
  apply Nat.eqb_eq in El. rewrite El. simpl.
  destruct (violates_notnull _ _) eqn:Ev; [done|].
  destruct Hs as [|(i & k & Hi & Hr & Hh)]; [done|].
  unfold assign_key. by rewrite Hi, Hr, Hh.
Qed.

Lemma settled_app sch cols rows extra p :
  settled sch cols rows p → settled sch cols (rows ++ extra) p.
Proof.
  intros (El & Eb & Hs). repeat (split; [done|]).
  destruct Hs as [|(i & k & Hi & Hr & Hh)]; [by left|].
  right. exists i, k. rewrite has_id_app, Hh. done.
Qed.

Lemma has_id_last i k rows r :
  r !! i = Some (VInt k) → has_id i k (rows ++ [r]) = true.
Proof.
  intros Hr. rewrite has_id_app. apply orb_true_iff. right.
  unfold has_id, row_key. simpl. rewrite Hr, Z.eqb_refl. done.
Qed.

(** A batch that succeeds appends rows to the table, each stored for one of
    the parameter tuples, and touches no other table; when every tuple
    spells its key, the same batch is skipped on the table that results. *)
Lemma insert_many_ok fk t cols ps (d d' : db) tb :
  d !! t = Some tb →
  insert_many fk t cols ps d = (Ok (), d') →
  ∃ extra,
    d' !! t = Some (Table (tbl_schema tb) (tbl_rows tb ++ extra))
    ∧ (∀ t', t' ≠ t → d' !! t' = d !! t')
    ∧ Forall (λ r', ∃ p, p ∈ ps ∧ stored_as (tbl_schema tb) cols p r') extra
    ∧ ∀ i, pk_index (tbl_schema tb) = Some i →
           Forall (λ p, ∃ k, new_row (tbl_schema tb) cols p !! i = Some (VInt k)) ps →
           Forall (settled (tbl_schema tb) cols (tbl_rows tb ++ extra)) ps.
Proof.
  revert d tb. induction ps as [|p ps IH]; intros d tb Ht; simpl.
  - intros [= <-]. exists []. rewrite app_nil_r. destruct tb. simpl.
    repeat split; auto.
  - destruct (insert_or_ignore fk t cols p d) as [d1|e] eqn:E1; [|done].
    intros Hm.
    destruct (insert_or_ignore_ok _ _ _ _ _ _ _ Ht E1) as (El & Eb & Hcase).
    destruct Hcase as [[-> Hskip]|(r' & -> & Ha)].
    + destruct (IH _ _ Ht Hm) as (extra & Ht' & Ho & Hst & Hset).
      exists extra. repeat (split; [done|]). split.
      * eapply Forall_impl; [exact Hst|]. simpl.
        intros r (q & Hq & Hs). exists q. split; [by right|done].
      * intros i Hi Hk. apply Forall_cons in Hk as [[k Hk] Hks].
        constructor; [|by apply (Hset i)].
        apply settled_app. repeat (split; [done|]).
        destruct Hskip as [|Hn]; [by left|]. right.
        apply assign_key_none in Hn as (i' & k' & Hi' & Hr' & Hh').
        exists i', k'. done.
    + assert (<[t := Table (tbl_schema tb) (tbl_rows tb ++ [r'])]> d !! t
              = Some (Table (tbl_schema tb) (tbl_rows tb ++ [r']))) as Ht1
        by apply lookup_insert_eq.
      destruct (IH _ _ Ht1 Hm) as (extra & Ht' & Ho & Hst & Hset).
      simpl in *. exists (r' :: extra).
      rewrite <- app_assoc in Ht'. simpl in Ht'. split; [done|]. split.
      { intros t' Hne. rewrite Ho by done. by apply lookup_insert_ne. }
      split.
      * constructor.
        -- exists p. split; [by left|]. apply assign_key_some in Ha.
           destruct Ha as [->|(i & k & Hi & ->)]; [by left|right; eauto].
        -- eapply Forall_impl; [exact Hst|]. simpl.
           intros r (q & Hq & Hs). exists q. split; [by right|done].
      * intros i Hi Hk. apply Forall_cons in Hk as [[k Hk] Hks].
        replace (tbl_rows tb ++ r' :: extra)
          with ((tbl_rows tb ++ [r']) ++ extra) by by rewrite <- app_assoc.
        constructor; [|by apply (Hset i)].
        apply settled_app. repeat (split; [done|]). right.
        destruct (assign_key_given _ _ _ _ _ _ Hi Hk Ha) as [-> _].
        exists i, k. repeat (split; [done|]). by apply has_id_last.
Qed.

Lemma insert_many_settled fk t cols ps (d : db) tb :
  d !! t = Some tb →
  Forall (settled (tbl_schema tb) cols (tbl_rows tb)) ps →
  insert_many fk t cols ps d = (Ok (), d).
Proof.
  intros Ht. induction 1 as [|p ps Hp _ IH]; simpl; [done|].
  by rewrite (insert_or_ignore_settled _ _ _ _ _ _ Ht Hp).
Qed.

Lemma for_each_ext {A B} (f g : A → result B) l :
  (∀ x, f x = g x) → for_each f l = for_each g l.
Proof. intros E. induction l as [|x l IH]; simpl; [done|]. by rewrite E, IH. Qed.

Lemma parent_key_same (d d' : db) ref :
  same_schemas d d' → parent_key d' ref = parent_key d ref.
Proof.
  intros Hs. unfold parent_key. specialize (Hs ref.1).
  destruct (d !! ref.1) as [pt|], (d' !! ref.1) as [pt'|]; simpl in Hs;
    try done.
  injection Hs as ->. done.
Qed.

Lemma prepare_insert_same fk t cols (d d' : db) :
  same_schemas d d' → prepare_insert fk t cols d' = prepare_insert fk t cols d.
Proof.
  intros Hs. unfold prepare_insert. pose proof (Hs t) as Ht.
  destruct (d !! t) as [tb|], (d' !! t) as [tb'|]; simpl in Ht; try done.
  injection Ht as ->.
  destruct (list_find _ cols) as [[]|]; [done|].
  destruct fk; [|done].
  erewrite for_each_ext; [reflexivity|].
  intros c. simpl. destruct (col_ref c); [|done]. by apply parent_key_same.
Qed.

Lemma insert_many_same_schemas fk t cols ps (d d' : db) tb :
  d !! t = Some tb →
  insert_many fk t cols ps d = (Ok (), d') →
  same_schemas d d'.
Proof.
  intros Ht Hm. destruct (insert_many_ok _ _ _ _ _ _ _ Ht Hm) as (extra & Ht' & Ho & _).
  intros t'. destruct (decide (t' = t)) as [->|Hne].
  - by rewrite Ht, Ht'.
  - by rewrite Ho.
Qed.

(** *** One call of [insert_csv] on an entity *)

Lemma executemany_insert t cols ps st :
  prepare_insert (foreign_keys st) t cols (view st) = Ok () →
  executemany (InsertOrIgnore t cols) ps st
  = ((insert_many (foreign_keys st) t cols ps (view st)).1,
     State (disk st)
       (Some (insert_many (foreign_keys st) t cols ps (view st)).2)
       (foreign_keys st)
       (trace st ++ [EvExecuteMany (InsertOrIgnore t cols) (length ps)])).
Proof.
  intros Hp. destruct st as [d [dt|] fk tr];
    unfold executemany, mbind, M_bind, log, act, record, view in *;
    simpl in *; rewrite Hp; simpl;
    by destruct (insert_many fk t cols ps _).
Qed.

Lemma executemany_unprepared t cols ps st e :
  prepare_insert (foreign_keys st) t cols (view st) = Raise e →
  (executemany (InsertOrIgnore t cols) ps st).1 = Raise e.
Proof.
  intros Hp. destruct st as [d [dt|] fk tr];
    unfold executemany, mbind, M_bind, log, act, record, view in *;
    simpl in *; by rewrite Hp.
Qed.

(** A batch of an entity that goes through. *)
Lemma insert_csv_batch files e file_path rows st tb ps d' tb' :
  view st !! entity_name e = Some tb →
  files !! file_path = Some rows →
  for_each (entity_params e) rows = Ok ps →
  prepare_insert (foreign_keys st) (entity_name e) (entity_columns e) (view st)
  = Ok () →
  insert_many (foreign_keys st) (entity_name e) (entity_columns e) ps (view st)
  = (Ok (), d') →
  d' !! entity_name e = Some tb' →
  insert_csv files (entity_name e) file_path st
  = (Ok (Z.of_nat (length (tbl_rows tb')) - Z.of_nat (length (tbl_rows tb))),
     State d' None (foreign_keys st)
       (trace st ++
        [EvExecute (SelectCount (entity_name e));
         EvExecuteMany (InsertOrIgnore (entity_name e) (entity_columns e))
           (length ps);
         EvCommit;
         EvExecute (SelectCount (entity_name e))])).
Proof.
  intros Ht Hf Hps Hp Hm Ht'. unfold insert_csv.
  erewrite bind_ok by (by apply fetch_count_some).
  rewrite Hf, build_entity, Hps. simpl.
  erewrite bind_ok by reflexivity. simpl.
  pose proof (executemany_insert (entity_name e) (entity_columns e) ps
                (record (EvExecute (SelectCount (entity_name e))) st) Hp) as Hx.
  change (foreign_keys (record _ st)) with (foreign_keys st) in Hx.
  change (view (record _ st)) with (view st) in Hx.
  rewrite Hm in Hx. simpl in Hx.
  erewrite bind_ok by apply Hx.
  erewrite bind_ok by apply commit_pending.
  erewrite bind_ok by (by apply fetch_count_some with (tb := tb')).
  unfold mret, M_ret, record. simpl. by rewrite <- !app_assoc.
Qed.

(** What a call of [insert_csv] that returns has done. *)
Lemma insert_csv_ok_inv files e file_path rows st tb n st' :
  view st !! entity_name e = Some tb →
  files !! file_path = Some rows →
  insert_csv files (entity_name e) file_path st = (Ok n, st') →
  ∃ ps d',
    for_each (entity_params e) rows = Ok ps
    ∧ prepare_insert (foreign_keys st) (entity_name e) (entity_columns e) (view st)
      = Ok ()
    ∧ insert_many (foreign_keys st) (entity_name e) (entity_columns e) ps (view st)
      = (Ok (), d')
    ∧ disk st' = d' ∧ txn st' = None ∧ foreign_keys st' = foreign_keys st.
Proof.
  intros Ht Hf.
  destruct (for_each (entity_params e) rows) as [ps|err] eqn:Hps; cycle 1.
  { unfold insert_csv. erewrite bind_ok by (by apply fetch_count_some).
    by rewrite Hf, build_entity, Hps. }
  destruct (prepare_insert (foreign_keys st) (entity_name e) (entity_columns e)
              (view st)) as [[]|err] eqn:Hp; cycle 1.
  { unfold insert_csv. erewrite bind_ok by (by apply fetch_count_some).
    rewrite Hf, build_entity, Hps. simpl.
    erewrite bind_ok by reflexivity. simpl.
    pose proof (executemany_unprepared (entity_name e) (entity_columns e) ps
                  (record (EvExecute (SelectCount (entity_name e))) st) err Hp)
      as Hx.
    unfold mbind at 1. unfold M_bind at 1.
    destruct (executemany _ _ _) as [[u|err'] st1]; simpl in Hx; done. }
  destruct (insert_many (foreign_keys st) (entity_name e) (entity_columns e)
              ps (view st)) as [[[]|err] d'] eqn:Hm; cycle 1.
  { unfold insert_csv. erewrite bind_ok by (by apply fetch_count_some).
    rewrite Hf, build_entity, Hps. simpl.
    erewrite bind_ok by reflexivity. simpl.
    pose proof (executemany_insert (entity_name e) (entity_columns e) ps
                  (record (EvExecute (SelectCount (entity_name e))) st) Hp) as Hx.
    change (foreign_keys (record _ st)) with (foreign_keys st) in Hx.
    change (view (record _ st)) with (view st) in Hx.
    rewrite Hm in Hx. simpl in Hx.
    by erewrite bind_raise by apply Hx. }
  destruct (insert_many_ok _ _ _ _ _ _ _ Ht Hm) as (extra & Ht' & _).
  erewrite insert_csv_batch by done.
  intros [= <- <-]. exists ps, d'. done.
Qed.

Lemma for_each_ok_elem {A B} (f : A → result B) l ys y :
  for_each f l = Ok ys → y ∈ ys → ∃ x, x ∈ l ∧ f x = Ok y.
Proof.
  revert ys. induction l as [|x l IH]; simpl; intros ys.
  - intros [= <-] Hy. by apply elem_of_nil in Hy.
  - destruct (f x) as [y0|] eqn:Ex; [|done].
    destruct (for_each f l) as [ys0|]; [|done]. intros [= <-] Hy.
    apply elem_of_cons in Hy as [->|Hy].
    + exists x. split; [by left|done].
    + destruct (IH _ eq_refl Hy) as (x0 & Hx0 & E0).
      exists x0. split; [by right|done].
Qed.

(** *** The key and the numeric fields of an entity's row *)

Lemma to_int_given (r : csv_row) f o :
  ¬ blank r f → to_int (r !! f) = Ok o → ∃ z, o = Some z.
Proof.
  unfold blank, to_int. intros Hb. destruct (r !! f) as [s|]; [|tauto].
  destruct (String.eqb_spec s "") as [->|_]; [tauto|].
  destruct (py_int s) as [z|]; [|done]. intros [= <-]. eauto.
Qed.

Lemma entity_pk e : pk_index (entity_schema e) = Some 0%nat.
Proof. by destruct e. Qed.

Lemma entity_key e (r : csv_row) p :
  ¬ blank r "ID" →
  entity_params e r = Ok p →
  ∃ k, new_row (entity_schema e) (entity_columns e) p !! 0%nat = Some (VInt k).
Proof.
  intros Hb. destruct e; simpl; conversions; intros [= <-];
    match goal with
    | E : to_int (r !! "ID") = Ok ?o |- _ =>
        destruct (to_int_given _ _ _ Hb E) as [z ->]
    end; by exists z.
Qed.


(** C1 (as amended): when every row of the file carries a non-empty [ID] and
    a first run of [insert_csv] on an entity returns, a second run on the
    same file against the store the first one left returns 0 and leaves the
    committed database as it is, with no transaction pending. *)
Theorem C1_second_run_inserts_nothing
    (files : gmap string (list csv_row)) (e : entity) (file_path : string)
    (rows : list csv_row) (st st1 : state) (n : Z) :
  initialised e (view st) →
  files !! file_path = Some rows →
  (∀ r, r ∈ rows → ¬ blank r "ID") →
  insert_csv files (entity_name e) file_path st = (Ok n, st1) →
  insert_csv files (entity_name e) file_path st1
  = (Ok 0,
     State (disk st1) None (foreign_keys st1)
       (trace st1 ++
        [EvExecute (SelectCount (entity_name e));
         EvExecuteMany (InsertOrIgnore (entity_name e) (entity_columns e))
           (length rows);
         EvCommit;
         EvExecute (SelectCount (entity_name e))])).
Proof.
  intros (tb & Ht & Hsch) Hf Hid Hrun.
  destruct (insert_csv_ok_inv _ _ _ _ _ _ _ _ Ht Hf Hrun)
    as (ps & d' & Hps & Hp & Hm & Hd & Hx & Hfk).
  destruct (insert_many_ok _ _ _ _ _ _ _ Ht Hm) as (extra & Ht' & _ & _ & Hset).
  assert (Forall (settled (tbl_schema tb) (entity_columns e)
                    (tbl_rows tb ++ extra)) ps) as Hall.
  { apply (Hset 0%nat); [by rewrite Hsch, entity_pk|].
    apply Forall_forall. intros p Hin.
    destruct (for_each_ok_elem _ _ _ _ Hps Hin) as (r & Hr & Er).
    rewrite Hsch. eapply entity_key; [by apply Hid|done]. }
  assert (view st1 = d') as Hv by (unfold view; by rewrite Hx, Hd).
  assert (length ps = length rows) as Hlen.
  { symmetry. eapply Forall2_length, for_each_ok_inv, Hps. }
  rewrite (insert_csv_batch files e file_path rows st1
             (Table (tbl_schema tb) (tbl_rows tb ++ extra)) ps d'
             (Table (tbl_schema tb) (tbl_rows tb ++ extra))).
  - rewrite Z.sub_diag, Hlen, <- Hd. reflexivity.
  - by rewrite Hv.
  - done.
  - done.
  - rewrite Hv, Hfk.
    rewrite (prepare_insert_same _ _ _ (view st) d'); [done|].
    by eapply (insert_many_same_schemas _ _ _ _ _ _ tb).
  - rewrite Hv.
    by apply (insert_many_settled _ _ _ _ _
                (Table (tbl_schema tb) (tbl_rows tb ++ extra))).
  - done.
Qed.

End Properties.

(** ** Further properties of the two scripts *)

Section Further.
Context `{PyConv} `{!Sqlite.Engine}.
Import Sqlite InsertData Entities.

(** *** The schema initializer *)

Lemma entity_of_name_name e : entity_of_name (entity_name e) = Some e.
Proof. by destruct e. Qed.

Lemma entity_of_name_some t e : entity_of_name t = Some e → t = entity_name e.
Proof.
  unfold entity_of_name.
  repeat match goal with
  | |- context [String.eqb t ?s] => destruct (String.eqb_spec t s) as [->|_]
  end; intros [= <-]; reflexivity.
Qed.

Lemma create_tables_lookup (st : state) :
  ∃ st',
    create_tables st = (Ok (), st')
    ∧ ∀ t,
        view st' !! t
        = match view st !! t with
          | Some tb => Some tb
          | None => (λ e, Table (entity_schema e) []) <$> entity_of_name t
          end.
Proof.
  destruct (create_tables_view st) as (st' & E & V).
  exists st'. split; [exact E|]. intros t. rewrite V, !ensure_lookup.
  destruct (view st !! t) as [tb|]; [reflexivity|].
  repeat case_decide; subst; try reflexivity.
  unfold entity_of_name.
  repeat match goal with
  | |- context [String.eqb t ?s] =>
      destruct (String.eqb_spec t s) as [->|_]; [congruence|]
  end.
  reflexivity.
Qed.

(** X1: [create_tables] never raises; a table that is in the store stays as
    it is (columns and rows), each of the five tables that is missing is
    added, empty, with the columns the script declares, and no other table
    appears. *)
Theorem create_tables_adds_missing_tables (st : state) :
  ∃ st',
    create_tables st = (Ok (), st')
    ∧ (∀ t tb, view st !! t = Some tb → view st' !! t = Some tb)
    ∧ (∀ e, view st !! entity_name e = None →
            view st' !! entity_name e = Some (Table (entity_schema e) []))
    ∧ (∀ t, view st !! t = None → t ∉ order → view st' !! t = None).
Proof.
  destruct (create_tables_lookup st) as (st' & E & V).
  exists st'. split; [exact E|]. split; [|split].
  - intros t tb Ht. by rewrite V, Ht.
  - intros e He. by rewrite V, He, entity_of_name_name.
  - intros t Ht Hout. rewrite V, Ht.
    destruct (entity_of_name t) as [e|] eqn:Ee; [|reflexivity].
    apply entity_of_name_some in Ee as ->.
    exfalso. apply Hout, entity_name_order.
Qed.

(** X2: [create_tables] is idempotent: run on the store it has just
    initialised, it changes no table. *)
Theorem create_tables_idempotent (st : state) :
  view (create_tables (create_tables st).2).2 = view (create_tables st).2.
Proof.
  destruct (create_tables_lookup st) as (st1 & E1 & V1).
  destruct (create_tables_lookup st1) as (st2 & E2 & V2).
  rewrite E1. cbn [snd]. rewrite E2. cbn [snd].
  apply map_eq. intros t. rewrite V2.
  destruct (view st1 !! t) as [tb|] eqn:Ht; [reflexivity|].
  rewrite V1 in Ht. destruct (view st !! t); [discriminate Ht|].
  by rewrite Ht.
Qed.

Lemma create_tables_idle d fk tr :
  ∃ tr',
    create_tables (State d None fk tr)
    = (Ok (),
       State
         (ensure "reviews" reviews_schema
            (ensure "orders" orders_schema
               (ensure "customers" customers_schema
                  (ensure "products" products_schema
                     (ensure "categories" categories_schema d)))))
         None true tr').
Proof.
  unfold create_tables.
  erewrite bind_ok by apply execute_pragma_idle.
  repeat (erewrite bind_ok by apply execute_create_table_idle).
  rewrite commit_idle. eexists. reflexivity.
Qed.

Lemma create_tables_enables_idle (st : state) :
  txn st = None →
  foreign_keys (create_tables st).2 = true
  ∧ txn (create_tables st).2 = None
  ∧ disk (create_tables st).2 = view (create_tables st).2.
Proof.
  intros Ht. destruct st as [d t fk tr]. simpl in Ht. subst t.
  destruct (create_tables_idle d fk tr) as (tr' & ->). done.
Qed.

(** X3: on a connection without a pending transaction, [create_tables]
    turns foreign-key enforcement on, writes the tables straight to the
    file and leaves no transaction pending. *)
Theorem create_tables_enables_foreign_keys (st : state) :
  txn st = None →
  foreign_keys (create_tables st).2 = true
  ∧ txn (create_tables st).2 = None
  ∧ disk (create_tables st).2 = view (create_tables st).2.
Proof.
  intros Ht. destruct st as [d t fk tr]. simpl in Ht. subst t.
  unfold create_tables.
  erewrite bind_ok by apply execute_pragma_idle.
  repeat (erewrite bind_ok by apply execute_create_table_idle).
  rewrite commit_idle. simpl. done.
Qed.

(** *** The rows that a batch adds *)

Lemma has_id_keys i k rows : has_id i k rows = true ↔ k ∈ keys i rows.
Proof.
  unfold has_id, keys. induction rows as [|r rows IH]; simpl.
  - split; [done|]. intros Hk. by apply elem_of_nil in Hk.
  - destruct (row_key i r) as [k'|] eqn:Er; simpl.
    + rewrite orb_true_iff, IH, elem_of_cons, Z.eqb_eq. tauto.
    + exact IH.
Qed.

Lemma max_id_bound i rows k :
  has_id i k rows = true → ∃ m, max_id i rows = Some m ∧ k ≤ m.
Proof.
  unfold has_id, max_id. induction rows as [|r rows IH]; simpl; [done|].
  destruct (row_key i r) as [k'|] eqn:Er; simpl.
  - intros Hor. apply orb_true_iff in Hor as [Hk|Hk].
    + apply Z.eqb_eq in Hk as ->.
      destruct (foldr _ None rows) as [m|]; eexists; split; try reflexivity; lia.
    + destruct (IH Hk) as (m & -> & Hm). eexists. split; [reflexivity|]. lia.
  - exact IH.
Qed.

(** The key under which a row is stored is an integer that no row of the
    table has: the one the row spells, or one the store picks for NULL. *)
Lemma assign_key_fresh sch rows r r' i :
  pk_index sch = Some i →
  assign_key sch rows r = Ok (Some r') →
  ∃ k, r' = <[i := VInt k]> r
       ∧ r' !! i = Some (VInt k)
       ∧ has_id i k rows = false
       ∧ (r !! i = Some (VInt k) ∨ r !! i = Some VNull).
Proof.
  unfold assign_key. intros ->.
  destruct (r !! i) as [[|k|x|s]|] eqn:Er; try done.
  - assert (i < length r)%nat as Hi by (eapply lookup_lt_Some; exact Er).
    destruct (max_id i rows) as [m|] eqn:Em.
    + destruct (m <? int64_max) eqn:Elt.
      * intros [= <-]. exists (m + 1). split; [done|].
        split; [by apply list_lookup_insert_eq|]. split; [|by right].
        destruct (has_id i (m + 1) rows) eqn:Eh; [|done].
        destruct (max_id_bound _ _ _ Eh) as (m' & Em' & Hle).
        rewrite Em in Em'. injection Em' as <-. lia.
      * destruct (random_rowid rows) as [k|]; [|done].
        destruct (in_int64 k && negb (has_id i k rows)) eqn:Ec; [|done].
        intros [= <-]. exists k. split; [done|].
        split; [by apply list_lookup_insert_eq|]. split; [|by right].
        apply andb_true_iff in Ec as [_ Ec]. by apply negb_true_iff in Ec.
    + intros [= <-]. exists 1. split; [done|].
      split; [by apply list_lookup_insert_eq|]. split; [|by right].
      destruct (has_id i 1 rows) eqn:Eh; [|done].
      destruct (max_id_bound _ _ _ Eh) as (m' & Em' & _). congruence.
  - destruct (has_id i k rows) eqn:Eh; [done|]. intros [= <-].
    exists k. split; [symmetry; by apply list_insert_id|].
    split; [done|]. split; [done|]. by left.
Qed.

(** One insert that succeeds: the row is skipped, or one row is appended
    under a fresh key and, with foreign keys on, with its references in
    place. *)
Lemma insert_or_ignore_step fk t cols p (d d' : db) tb i :
  d !! t = Some tb →
  pk_index (tbl_schema tb) = Some i →
  insert_or_ignore fk t cols p d = Ok d' →
  d' = d
  ∨ ∃ r' k,
      d' = <[t := Table (tbl_schema tb) (tbl_rows tb ++ [r'])]> d
      ∧ r' = <[i := VInt k]> (new_row (tbl_schema tb) cols p)
      ∧ r' !! i = Some (VInt k)
      ∧ has_id i k (tbl_rows tb) = false
      ∧ (new_row (tbl_schema tb) cols p !! i = Some (VInt k)
         ∨ new_row (tbl_schema tb) cols p !! i = Some VNull)
      ∧ (fk = true → fk_ok d' (tbl_schema tb) r' = true).
Proof.
  intros Ht Hi Hins.
  destruct (insert_or_ignore_ok _ _ _ _ _ _ _ Ht Hins) as (_ & _ & Hcase).
  destruct Hcase as [[-> _]|(r' & -> & Ha)]; [by left|]. right.
  destruct (assign_key_fresh _ _ _ _ _ Hi Ha) as (k & Hr' & Hk & Hfresh & Hgiven).
  exists r', k. repeat (split; [done|]).
  intros ->. revert Hins. unfold insert_or_ignore. rewrite Ht.
  destruct (negb _); [done|]. destruct (negb _); [done|].
  destruct (violates_notnull _ _); [intros [= E]|].
  - (* the row was not skipped *)
    exfalso. apply (f_equal (λ m : db, tbl_rows <$> m !! t)) in E.
    simpl in E. rewrite Ht, lookup_insert_eq in E. simpl in E.
    injection E as E. apply (f_equal length) in E.
    rewrite length_app in E. simpl in E. lia.
  - rewrite Ha. simpl.
    destruct (fk_ok _ _ r'); [done|]. simpl. done.
Qed.

(** A batch, whether it goes through or stops at a failing tuple: the table
    keeps its rows and gets at most one more per tuple, each under a key
    that was free when it was added. *)
Lemma insert_many_rows fk t cols ps (d d' : db) res tb i :
  d !! t = Some tb →
  pk_index (tbl_schema tb) = Some i →
  insert_many fk t cols ps d = (res, d') →
  ∃ extra,
    d' = <[t := Table (tbl_schema tb) (tbl_rows tb ++ extra)]> d
    ∧ (length extra ≤ length ps)%nat
    ∧ ∀ e1 r' e2, extra = e1 ++ r' :: e2 →
        ∃ p k,
          p ∈ ps
          ∧ r' = <[i := VInt k]> (new_row (tbl_schema tb) cols p)
          ∧ r' !! i = Some (VInt k)
          ∧ has_id i k (tbl_rows tb ++ e1) = false
          ∧ (new_row (tbl_schema tb) cols p !! i = Some (VInt k)
             ∨ new_row (tbl_schema tb) cols p !! i = Some VNull)
          ∧ (fk = true →
             fk_ok (<[t := Table (tbl_schema tb) (tbl_rows tb ++ e1 ++ [r'])]> d)
               (tbl_schema tb) r' = true).
Proof.
  revert d tb. induction ps as [|p ps IH]; intros d tb Ht Hi; simpl.
  - intros [= <- <-]. exists []. rewrite app_nil_r. split.
    { destruct tb. simpl. by rewrite insert_id. }
    split; [done|]. intros e1 r' e2 E. by destruct e1.
  - destruct (insert_or_ignore fk t cols p d) as [d1|e] eqn:E1.
    + intros Hm.
      destruct (insert_or_ignore_step _ _ _ _ _ _ _ _ Ht Hi E1)
        as [->|(r0 & k0 & -> & Hr0 & Hk0 & Hf0 & Hg0 & Hfk0)].
      * destruct (IH _ _ Ht Hi Hm) as (extra & Hd' & Hlen & Hall).
        exists extra. split; [done|]. split; [simpl; lia|].
        intros e1 r' e2 E. destruct (Hall e1 r' e2 E) as (q & k & Hq & Hrest).
        exists q, k. split; [by right|done].
      * assert (<[t := Table (tbl_schema tb) (tbl_rows tb ++ [r0])]> d !! t
                = Some (Table (tbl_schema tb) (tbl_rows tb ++ [r0]))) as Ht1
          by apply lookup_insert_eq.
        destruct (IH _ _ Ht1 Hi Hm) as (extra & Hd' & Hlen & Hall).
        simpl in *. exists (r0 :: extra). split.
        { rewrite Hd', insert_insert_eq, <- app_assoc. reflexivity. }
        split; [simpl; lia|].
        intros e1 r' e2 E. destruct e1 as [|x e1]; simpl in E.
        -- injection E as <- <-. exists p, k0. rewrite app_nil_r.
           split; [by left|]. done.
        -- injection E as <- E.
           destruct (Hall e1 r' e2 E) as (q & k & Hq & Hr & Hk & Hf & Hg & Hfk).
           exists q, k. split; [by right|]. repeat (split; [done|]).
           rewrite <- app_assoc in Hf. simpl in Hf. split; [done|]. split; [done|].
           intros Hon. specialize (Hfk Hon).
           rewrite insert_insert_eq, <- !app_assoc in Hfk. exact Hfk.
    + intros [= <- <-]. exists []. rewrite app_nil_r. split.
      { destruct tb. simpl. by rewrite insert_id. }
      split; [simpl; lia|]. intros e1 r' e2 E. by destruct e1.
Qed.

(** *** One call of [insert_csv]: what it returns and what it commits *)

Lemma executemany_disk s ps st : disk (executemany s ps st).2 = disk st.
Proof.
  destruct st as [d [t|] fk tr]; destruct s;
    unfold executemany, mbind, M_bind, log, act, record, view, write, begin,
      set_disk, set_txn, set_foreign_keys; simpl;
    repeat case_match; reflexivity.
Qed.

(** A call on an entity that returns: the batch went through and was
    committed. *)
Lemma insert_csv_success files e file_path rows st tb n st' :
  view st !! entity_name e = Some tb →
  tbl_schema tb = entity_schema e →
  files !! file_path = Some rows →
  insert_csv files (entity_name e) file_path st = (Ok n, st') →
  ∃ ps extra,
    for_each (entity_params e) rows = Ok ps
    ∧ insert_many (foreign_keys st) (entity_name e) (entity_columns e) ps (view st)
      = (Ok (),
         <[entity_name e := Table (entity_schema e) (tbl_rows tb ++ extra)]> (view st))
    ∧ n = Z.of_nat (length extra)
    ∧ st' = State
              (<[entity_name e := Table (entity_schema e) (tbl_rows tb ++ extra)]>
                 (view st))
              None (foreign_keys st)
              (trace st ++
               [EvExecute (SelectCount (entity_name e));
                EvExecuteMany (InsertOrIgnore (entity_name e) (entity_columns e))
                  (length ps);
                EvCommit;
                EvExecute (SelectCount (entity_name e))]).
Proof.
  intros Ht Hsch Hf Hrun.
  destruct (insert_csv_ok_inv _ _ _ _ _ _ _ _ Ht Hf Hrun)
    as (ps & d' & Hps & Hp & Hm & _).
  assert (pk_index (tbl_schema tb) = Some 0%nat) as Hpk
    by (rewrite Hsch; apply entity_pk).
  destruct (insert_many_rows _ _ _ _ _ _ _ _ _ Ht Hpk Hm) as (extra & Hd' & _).
  rewrite Hsch in Hd'. subst d'.
  rewrite (insert_csv_batch files e file_path rows st tb ps _
             (Table (entity_schema e) (tbl_rows tb ++ extra)) Ht Hf Hps Hp Hm)
    in Hrun by apply lookup_insert_eq.
  injection Hrun as <- <-. exists ps, extra.
  repeat (split; [done|]). split; [|reflexivity].
  simpl. rewrite length_app. lia.
Qed.

Lemma insert_csv_raise_disk
    (files : gmap string (list csv_row)) (table file_path : string)
    (st st' : state) (err : exn) :
  insert_csv files table file_path st = (Raise err, st') →
  disk st' = disk st.
Proof.
  destruct (count_from table (view st)) as [n0|err0] eqn:Hc; cycle 1.
  { unfold insert_csv. erewrite bind_raise by (by apply fetch_count_raise).
    by intros [= <- <-]. }
  destruct (files !! file_path) as [rows|] eqn:Hf; cycle 1.
  { unfold insert_csv. erewrite bind_ok by (by apply fetch_count_ok).
    rewrite Hf. unfold mbind, M_bind, print, log, mret, M_ret. simpl.
    by intros [=]. }
  destruct (decide (table ∈ order)) as [Hin|Hout]; cycle 1.
  { unfold insert_csv. erewrite bind_ok by (by apply fetch_count_ok).
    rewrite Hf, build_unknown by done. by intros [= <- <-]. }
  apply order_entity in Hin as [e ->].
  rewrite count_from_plain in Hc by apply entity_plain.
  destruct (view st !! entity_name e) as [tb|] eqn:Ht; [clear Hc|done].
  destruct (for_each (entity_params e) rows) as [ps|err0] eqn:Hps; cycle 1.
  { unfold insert_csv. erewrite bind_ok by (by apply fetch_count_some).
    rewrite Hf, build_entity, Hps. by intros [= <- <-]. }
  destruct (prepare_insert (foreign_keys st) (entity_name e) (entity_columns e)
              (view st)) as [[]|err0] eqn:Hp; cycle 1.
  { unfold insert_csv. erewrite bind_ok by (by apply fetch_count_some).
    rewrite Hf, build_entity, Hps. simpl.
    erewrite bind_ok by reflexivity. simpl.
    pose proof (executemany_unprepared (entity_name e) (entity_columns e) ps
                  (record (EvExecute (SelectCount (entity_name e))) st) err0 Hp)
      as Hx.
    pose proof (executemany_disk
                  (InsertOrIgnore (entity_name e) (entity_columns e)) ps
                  (record (EvExecute (SelectCount (entity_name e))) st)) as Hd.
    unfold mbind at 1. unfold M_bind at 1.
    destruct (executemany _ _ _) as [[u|err'] st1]; simpl in Hx, Hd; [done|].
    by intros [= <- <-]. }
  destruct (insert_many (foreign_keys st) (entity_name e) (entity_columns e)
              ps (view st)) as [[[]|err0] d'] eqn:Hm.
  - destruct (insert_many_ok _ _ _ _ _ _ _ Ht Hm) as (extra & Ht' & _).
    by erewrite insert_csv_batch.
  - unfold insert_csv. erewrite bind_ok by (by apply fetch_count_some).
    rewrite Hf, build_entity, Hps. simpl.
    erewrite bind_ok by reflexivity. simpl.
    pose proof (executemany_insert (entity_name e) (entity_columns e) ps
                  (record (EvExecute (SelectCount (entity_name e))) st) Hp) as Hx.
    change (foreign_keys (record _ st)) with (foreign_keys st) in Hx.
    change (view (record _ st)) with (view st) in Hx.
    rewrite Hm in Hx. simpl in Hx.
    erewrite bind_raise by apply Hx. by intros [= <- <-].
Qed.

(** X4: a call of [insert_csv] that raises, for whatever reason and on
    whatever table name, has committed nothing: the database of the file is
    the one before the call, and it is all the connection sees once it is
    closed, the rows the batch had inserted before the failure being rolled
    back. *)
Theorem insert_csv_failure_commits_nothing
    (files : gmap string (list csv_row)) (table file_path : string)
    (st st' : state) (err : exn) :
  insert_csv files table file_path st = (Raise err, st') →
  disk st' = disk st ∧ view (close st').2 = disk st.
Proof.
  intros Hrun. pose proof (insert_csv_raise_disk _ _ _ _ _ _ Hrun) as Hd.
  split; [exact Hd|]. by rewrite <- Hd.
Qed.

(** X5: the count that [insert_csv] returns for an entity is the number of
    rows it appended to the entity's table: it lies between 0 and the number
    of rows of the file, the rows that were there stay first and unchanged,
    and no other table is touched. *)
Theorem insert_csv_count_is_rows_added
    (files : gmap string (list csv_row)) (e : entity) (file_path : string)
    (rows : list csv_row) (st st' : state) (n : Z) :
  initialised e (view st) →
  files !! file_path = Some rows →
  insert_csv files (entity_name e) file_path st = (Ok n, st') →
  ∃ old extra,
    view st !! entity_name e = Some (Table (entity_schema e) old)
    ∧ view st' !! entity_name e = Some (Table (entity_schema e) (old ++ extra))
    ∧ n = Z.of_nat (length extra)
    ∧ 0 ≤ n ≤ Z.of_nat (length rows)
    ∧ ∀ t, t ≠ entity_name e → view st' !! t = view st !! t.
Proof.
  intros (tb & Ht & Hsch) Hf Hrun.
  destruct (insert_csv_success _ _ _ _ _ _ _ _ Ht Hsch Hf Hrun)
    as (ps & extra & Hps & Hm & -> & ->).
  assert (pk_index (tbl_schema tb) = Some 0%nat) as Hpk
    by (rewrite Hsch; apply entity_pk).
  destruct (insert_many_rows _ _ _ _ _ _ _ _ _ Ht Hpk Hm)
    as (extra' & Hd' & Hlen & _).
  assert (extra' = extra) as ->.
  { apply (f_equal (λ m : db, tbl_rows <$> m !! entity_name e)) in Hd'.
    simpl in Hd'. rewrite !lookup_insert_eq in Hd'. simpl in Hd'.
    injection Hd' as Hd'. by apply app_inv_head in Hd'. }
  assert (length ps = length rows) as Hrows.
  { symmetry. eapply Forall2_length, for_each_ok_inv, Hps. }
  exists (tbl_rows tb), extra. split.
  { rewrite Ht. destruct tb. simpl in *. by subst. }
  split; [apply lookup_insert_eq|]. split; [done|]. split; [lia|].
  intros t Hne. unfold view at 1. simpl. by apply lookup_insert_ne.
Qed.

(** The rows a successful call adds, one by one: each is the parameter tuple
    of a row of the file, stored under a key that was free. *)
Lemma insert_csv_added files e file_path rows st n st' :
  initialised e (view st) →
  files !! file_path = Some rows →
  insert_csv files (entity_name e) file_path st = (Ok n, st') →
  ∃ old extra,
    view st !! entity_name e = Some (Table (entity_schema e) old)
    ∧ view st' = <[entity_name e := Table (entity_schema e) (old ++ extra)]> (view st)
    ∧ ∀ e1 r' e2, extra = e1 ++ r' :: e2 →
        ∃ r p k,
          r ∈ rows
          ∧ entity_params e r = Ok p
          ∧ r' = <[0%nat := VInt k]> (new_row (entity_schema e) (entity_columns e) p)
          ∧ r' !! 0%nat = Some (VInt k)
          ∧ has_id 0 k (old ++ e1) = false
          ∧ (new_row (entity_schema e) (entity_columns e) p !! 0%nat = Some (VInt k)
             ∨ new_row (entity_schema e) (entity_columns e) p !! 0%nat = Some VNull)
          ∧ (foreign_keys st = true →
             fk_ok (<[entity_name e := Table (entity_schema e) (old ++ e1 ++ [r'])]>
                      (view st))
               (entity_schema e) r' = true).
Proof.
  intros (tb & Ht & Hsch) Hf Hrun.
  destruct (insert_csv_success _ _ _ _ _ _ _ _ Ht Hsch Hf Hrun)
    as (ps & extra & Hps & Hm & -> & ->).
  assert (pk_index (tbl_schema tb) = Some 0%nat) as Hpk
    by (rewrite Hsch; apply entity_pk).
  destruct (insert_many_rows _ _ _ _ _ _ _ _ _ Ht Hpk Hm)
    as (extra' & Hd' & _ & Hall).
  rewrite Hsch in *.
  assert (extra' = extra) as ->.
  { apply (f_equal (λ m : db, tbl_rows <$> m !! entity_name e)) in Hd'.
    simpl in Hd'. rewrite !lookup_insert_eq in Hd'. simpl in Hd'.
    injection Hd' as Hd'. by apply app_inv_head in Hd'. }
  exists (tbl_rows tb), extra. split.
  { rewrite Ht. destruct tb. simpl in *. by subst. }
  split; [reflexivity|].
  intros e1 r' e2 E.
  destruct (Hall e1 r' e2 E) as (p & k & Hp & Hrest).
  destruct (for_each_ok_elem _ _ _ _ Hps Hp) as (r & Hr & Er).
  exists r, p, k. done.
Qed.

Lemma Forall_splits {A} (P : A → Prop) (l : list A) :
  (∀ l1 x l2, l = l1 ++ x :: l2 → P x) → Forall P l.
Proof.
  intros Hall. apply Forall_forall. intros x Hx.
  apply list_elem_of_split in Hx as (l1 & l2 & ->). eauto.
Qed.

(** *** The values that are stored *)

Ltac split_fields Hf :=
  simpl in Hf; rewrite ?elem_of_cons, elem_of_nil in Hf;
  repeat (destruct Hf as [->|Hf]; [|]); try done.

Ltac run_params :=
  unfold categories_params, products_params, customers_params, orders_params,
    reviews_params, mbind, result_bind;
  repeat match goal with
  | |- context [match to_int ?v with _ => _ end] =>
      let E := fresh "E" in destruct (to_int v) eqn:E
  | |- context [match to_float ?v with _ => _ end] =>
      let E := fresh "E" in destruct (to_float v) eqn:E
  end.

Lemma entity_text_field e (r : csv_row) f p k :
  f ∈ text_fields e →
  entity_params e r = Ok p →
  field_of (entity_schema e) f
    (<[0%nat := VInt k]> (new_row (entity_schema e) (entity_columns e) p))
  = Some (of_str (r !! f)).
Proof.
  intros Hf Hp.
  destruct e; split_fields Hf; revert Hp; simpl; run_params;
    intros [= <-]; reflexivity.
Qed.

Lemma to_int_number (r : csv_row) f s z :
  r !! f = Some s → s ≠ "" → py_int s = Some z → to_int (r !! f) = Ok (Some z).
Proof.
  intros -> Hs Hz. unfold to_int.
  destruct (String.eqb_spec s ""); [done|]. by rewrite Hz.
Qed.




(** X6: text fields pass through [insert_csv] as they are read: every row
    added to the entity's table comes from a row of the file and holds, in
    each text column, the text of that field, the empty text included, and
    NULL only where the field is absent. *)
Theorem insert_csv_stores_text_as_read
    (files : gmap string (list csv_row)) (e : entity) (file_path : string)
    (rows : list csv_row) (st st' : state) (n : Z) :
  initialised e (view st) →
  files !! file_path = Some rows →
  insert_csv files (entity_name e) file_path st = (Ok n, st') →
  ∃ old extra,
    view st !! entity_name e = Some (Table (entity_schema e) old)
    ∧ view st' !! entity_name e = Some (Table (entity_schema e) (old ++ extra))
    ∧ Forall (λ r',
                ∃ r, r ∈ rows
                     ∧ ∀ f, f ∈ text_fields e →
                            field_of (entity_schema e) f r'
                            = Some (match r !! f with
                                    | Some s => VText s
                                    | None => VNull
                                    end))
        extra.
Proof.
  intros Hinit Hf Hrun.
  destruct (insert_csv_added _ _ _ _ _ _ _ Hinit Hf Hrun)
    as (old & extra & Hold & Hnew & Hall).
  exists old, extra. split; [done|]. split.
  { rewrite Hnew. apply lookup_insert_eq. }
  apply Forall_splits. intros e1 r' e2 E.
  destruct (Hall e1 r' e2 E) as (r & p & k & Hr & Hp & -> & _).
  exists r. split; [done|]. intros f Hfield.
  by rewrite (entity_text_field e r f p k Hfield Hp).
Qed.





(** *** Invariants of the store *)

Lemma keys_app i rows extra : keys i (rows ++ extra) = keys i rows ++ keys i extra.
Proof. unfold keys. apply omap_app. Qed.

Lemma fresh_keys_NoDup i (old extra : list row) :
  (∀ e1 r' e2, extra = e1 ++ r' :: e2 →
     ∃ k, r' !! i = Some (VInt k) ∧ has_id i k (old ++ e1) = false) →
  NoDup (keys i old) → NoDup (keys i (old ++ extra)).
Proof.
  intros Hall Hold. induction extra as [|x extra IH] using rev_ind.
  - by rewrite app_nil_r.
  - destruct (Hall extra x [] eq_refl) as (k & Hk & Hfresh).
    rewrite app_assoc, keys_app. apply NoDup_app. split.
    + apply IH. intros e1 r' e2 ->.
      apply (Hall e1 r' (e2 ++ [x])). by rewrite <- app_assoc.
    + split.
      * intros z Hz Hz'. unfold keys, row_key in Hz'. simpl in Hz'.
        rewrite Hk in Hz'. simpl in Hz'. apply list_elem_of_singleton in Hz' as ->.
        apply has_id_keys in Hz. congruence.
      * unfold keys, row_key. simpl. rewrite Hk. simpl. apply NoDup_singleton.
Qed.

(** X8: [insert_csv] keeps the ids of an entity's table distinct: when no
    two rows of the table share an id before the call, none do after it,
    whatever the file holds (repeated ids, ids already stored, blank ids). *)
Theorem insert_csv_keeps_ids_distinct
    (files : gmap string (list csv_row)) (e : entity) (file_path : string)
    (rows : list csv_row) (st st' : state) (n : Z) :
  initialised e (view st) →
  files !! file_path = Some rows →
  insert_csv files (entity_name e) file_path st = (Ok n, st') →
  ∃ old new,
    view st !! entity_name e = Some (Table (entity_schema e) old)
    ∧ view st' !! entity_name e = Some (Table (entity_schema e) new)
    ∧ (NoDup (keys 0 old) → NoDup (keys 0 new)).
Proof.
  intros Hinit Hf Hrun.
  destruct (insert_csv_added _ _ _ _ _ _ _ Hinit Hf Hrun)
    as (old & extra & Hold & Hnew & Hall).
  exists old, (old ++ extra). split; [done|]. split.
  { rewrite Hnew. apply lookup_insert_eq. }
  apply fresh_keys_NoDup. intros e1 r' e2 E.
  destruct (Hall e1 r' e2 E) as (r & p & k & _ & _ & _ & Hk & Hfresh & _).
  by exists k.
Qed.

Lemma parent_key_grows (d d' : db) ref i :
  grows d d' → parent_key d ref = Ok i → parent_key d' ref = Ok i.
Proof.
  intros Hg. unfold parent_key.
  destruct (d !! ref.1) as [pt|] eqn:Ep; [|done].
  destruct (Hg _ _ Ep) as (extra & ->). done.
Qed.

Lemma fk_holds_grows (d d' : db) cv :
  grows d d' → fk_holds d cv = true → fk_holds d' cv = true.
Proof.
  intros Hg. unfold fk_holds.
  destruct (col_ref cv.1) as [ref|]; [|done].
  destruct cv.2 as [|k|x|s]; try done.
  destruct (parent_key d ref) as [i|] eqn:Ek; [|done].
  rewrite (parent_key_grows _ _ _ _ Hg Ek).
  destruct (d !! ref.1) as [pt|] eqn:Ep; [|done].
  destruct (Hg _ _ Ep) as (extra & ->). simpl.
  intros Hh. rewrite has_id_app, Hh. done.
Qed.

Lemma fk_ok_grows (d d' : db) sch r :
  grows d d' → fk_ok d sch r = true → fk_ok d' sch r = true.
Proof.
  intros Hg. unfold fk_ok. rewrite !forallb_forall.
  intros Hall cv Hcv. eapply fk_holds_grows; eauto.
Qed.

Lemma grows_insert_more (d : db) t sch rows more :
  grows (<[t := Table sch rows]> d) (<[t := Table sch (rows ++ more)]> d).
Proof.
  intros t' tb. destruct (decide (t' = t)) as [->|Hne].
  - rewrite !lookup_insert_eq. intros [= <-]. by exists more.
  - rewrite !lookup_insert_ne by done. intros Ht. exists [].
    rewrite app_nil_r. by destruct tb.
Qed.

(** What the check of the references of a row amounts to. *)
Lemma fk_ok_lookup (d : db) sch (r : row) j c v ref :
  fk_ok d sch r = true →
  sch !! j = Some c → r !! j = Some v → col_ref c = Some ref →
  v = VNull
  ∨ ∃ k i pt,
      v = VInt k ∧ d !! ref.1 = Some pt ∧ parent_key d ref = Ok i
      ∧ k ∈ keys i (tbl_rows pt).
Proof.
  unfold fk_ok. rewrite forallb_forall. intros Hall Hc Hv Href.
  assert (In (c, v) (zip sch r)) as Hin.
  { apply list_elem_of_In, list_elem_of_lookup. exists j.
    apply lookup_zip_with_Some. eauto. }
  specialize (Hall _ Hin). unfold fk_holds in Hall. simpl in Hall.
  rewrite Href in Hall. destruct v as [|k|x|s]; try done; [by left|right].
  destruct (parent_key d ref) as [i|] eqn:Ek; [|done].
  destruct (d !! ref.1) as [pt|] eqn:Ep; [|done].
  exists k, i, pt. repeat (split; [done|]). by apply has_id_keys.
Qed.

(** X9: with foreign-key enforcement on, every row that a successful
    [insert_csv] adds has its references in place in the store the call
    leaves: each column declared as a foreign key holds NULL or the id of a
    row of the table it points to. *)
Theorem insert_csv_adds_no_dangling_reference
    (files : gmap string (list csv_row)) (e : entity) (file_path : string)
    (rows : list csv_row) (st st' : state) (n : Z) :
  initialised e (view st) →
  foreign_keys st = true →
  files !! file_path = Some rows →
  insert_csv files (entity_name e) file_path st = (Ok n, st') →
  ∃ old extra,
    view st !! entity_name e = Some (Table (entity_schema e) old)
    ∧ view st' !! entity_name e = Some (Table (entity_schema e) (old ++ extra))
    ∧ Forall (λ r',
                ∀ j c ref,
                  entity_schema e !! j = Some c → col_ref c = Some ref →
                  r' !! j = Some VNull
                  ∨ ∃ k i pt,
                      r' !! j = Some (VInt k)
                      ∧ view st' !! ref.1 = Some pt
                      ∧ parent_key (view st') ref = Ok i
                      ∧ k ∈ keys i (tbl_rows pt))
        extra.
Proof.
  intros Hinit Hfk Hf Hrun.
  destruct (insert_csv_added _ _ _ _ _ _ _ Hinit Hf Hrun)
    as (old & extra & Hold & Hnew & Hall).
  exists old, extra. split; [done|]. split.
  { rewrite Hnew. apply lookup_insert_eq. }
  apply Forall_splits. intros e1 r' e2 E.
  destruct (Hall e1 r' e2 E) as (r & p & k & _ & _ & Hr' & _ & _ & _ & Hok).
  specialize (Hok Hfk).
  assert (fk_ok (view st') (entity_schema e) r' = true) as Hfinal.
  { rewrite Hnew. eapply fk_ok_grows; [|exact Hok].
    replace (old ++ extra) with ((old ++ e1 ++ [r']) ++ e2)
      by (rewrite E, <- !app_assoc; reflexivity).
    apply grows_insert_more. }
  intros j c ref Hc Href.
  assert (is_Some (r' !! j)) as [v Hv].
  { apply lookup_lt_is_Some. rewrite Hr'.
    unfold row. rewrite length_insert. unfold new_row.
    rewrite length_map. eapply lookup_lt_Some, Hc. }
  destruct (fk_ok_lookup _ _ _ _ _ _ _ Hfinal Hc Hv Href)
    as [->|(k' & i & pt & -> & Hpt & Hi & Hk)]; [by left|].
  right. exists k', i, pt. done.
Qed.

(** *** The loader as a whole *)

Lemma for_loop_app {A S} (l1 l2 : list A) (body : A → S → M S) acc st :
  for_loop (l1 ++ l2) body acc st
  = match for_loop l1 body acc st with
    | (Ok a, st') => for_loop l2 body a st'
    | (Raise e, st') => (Raise e, st')
    end.
Proof.
  revert acc st. induction l1 as [|x l1 IH]; intros acc st; [reflexivity|].
  simpl. unfold mbind, M_bind.
  destruct (body x acc st) as [[a|e] st1]; [apply IH|reflexivity].
Qed.

Lemma data_file t : t ∈ order → dict_get t DATA_FILES = Some (t +:+ ".csv").
Proof. intros Hin. apply order_entity in Hin as [e ->]. by destruct e. Qed.

Lemma create_tables_ok st : create_tables st = (Ok (), (create_tables st).2).
Proof. destruct (create_tables_view st) as (st' & E & _). by rewrite E. Qed.

(** X10: when [insert_csv] raises for one entity, the loader stops there:
    [main] raises the same error, the entities that come later are not
    attempted, no summary is printed, the connection is closed, and the store
    on disk is the one the earlier entities left, without any row of the
    failing batch. *)
Theorem loader_failure_keeps_earlier_entities
    (w : world) (pre post : list string) (t : string)
    (results : list (string * Z)) (stk st' : state) (err : exn) :
  order = pre ++ t :: post →
  for_loop pre (ingest (csv_files w)) [] (create_tables (connect w [])).2
  = (Ok results, stk) →
  insert_csv (csv_files w) t (t +:+ ".csv") stk = (Raise err, st') →
  InsertData.main w
  = (Raise err,
     World (Some (disk stk)) (csv_files w) (sql_file w),
     trace st' ++ [EvClose]).
Proof.
  intros Horder Hpre Hfail.
  assert (t ∈ order) as Hin.
  { rewrite Horder. apply elem_of_app. right. by left. }
  unfold InsertData.main, try_finally, InsertData.run.
  erewrite bind_ok by apply create_tables_ok.
  rewrite Horder.
  unfold mbind at 1. unfold M_bind at 1.
  rewrite for_loop_app, Hpre, for_loop_cons.
  rewrite (ingest_step _ _ _ _ _ (data_file t Hin)), Hfail.
  simpl. unfold persist. simpl.
  by rewrite (insert_csv_raise_disk _ _ _ _ _ _ Hfail).
Qed.

Lemma grows_refl (d : db) : grows d d.
Proof.
  intros t tb Ht. exists []. rewrite app_nil_r. by destruct tb.
Qed.

Lemma grows_trans (d1 d2 d3 : db) : grows d1 d2 → grows d2 d3 → grows d1 d3.
Proof.
  intros H12 H23 t tb Ht.
  destruct (H12 _ _ Ht) as (x1 & Ht2).
  destruct (H23 _ _ Ht2) as (x2 & Ht3). simpl in Ht3.
  exists (x1 ++ x2). by rewrite app_assoc.
Qed.

Lemma grows_ensure t sch (d : db) : grows d (ensure t sch d).
Proof.
  unfold ensure. destruct (d !! t) eqn:Et; [apply grows_refl|].
  intros t' tb Ht'. exists []. rewrite app_nil_r.
  rewrite lookup_insert_ne by congruence. by destruct tb.
Qed.

(** A call that returns on a connection without a pending transaction has
    only added rows, and leaves no transaction pending. *)
Lemma insert_csv_ok_grows files table file_path st n st' :
  txn st = None →
  insert_csv files table file_path st = (Ok n, st') →
  txn st' = None ∧ grows (disk st) (disk st').
Proof.
  intros Hidle.
  assert (view st = disk st) as Hv by (unfold view; by rewrite Hidle).
  destruct (count_from table (view st)) as [n0|err0] eqn:Hc; cycle 1.
  { unfold insert_csv. erewrite bind_raise by (by apply fetch_count_raise). done. }
  destruct (files !! file_path) as [rows|] eqn:Hf; cycle 1.
  { unfold insert_csv. erewrite bind_ok by (by apply fetch_count_ok).
    rewrite Hf. unfold mbind, M_bind, print, log, mret, M_ret. simpl.
    intros [= <- <-]. simpl. split; [done|apply grows_refl]. }
  destruct (decide (table ∈ order)) as [Hin|Hout]; cycle 1.
  { unfold insert_csv. erewrite bind_ok by (by apply fetch_count_ok).
    by rewrite Hf, build_unknown by done. }
  apply order_entity in Hin as [e ->]. intros Hrun.
  rewrite count_from_plain in Hc by apply entity_plain.
  destruct (view st !! entity_name e) as [tb|] eqn:Ht; [clear Hc|done].
  destruct (insert_csv_ok_inv _ _ _ _ _ _ _ _ Ht Hf Hrun)
    as (ps & d' & _ & _ & Hm & Hd & Hx & _).
  split; [done|].
  destruct (insert_many_ok _ _ _ _ _ _ _ Ht Hm) as (extra & Ht' & Ho & _).
  rewrite Hd, <- Hv. intros t' tb' Ht''.
  destruct (decide (t' = entity_name e)) as [->|Hne].
  - rewrite Ht in Ht''. injection Ht'' as <-. by exists extra.
  - exists []. rewrite app_nil_r, Ho by done. by destruct tb'.
Qed.

Lemma for_loop_invariant {A S} (I J : state → Prop) (l : list A)
    (body : A → S → M S) acc st :
  (∀ x a s, I s →
     match body x a s with
     | (Ok _, s') => I s'
     | (Raise _, s') => J s'
     end) →
  I st →
  match for_loop l body acc st with
  | (Ok _, s') => I s'
  | (Raise _, s') => J s'
  end.
Proof.
  intros Hbody. revert acc st. induction l as [|x l IH]; intros acc st HI.
  - exact HI.
  - rewrite for_loop_cons. specialize (Hbody x acc st HI).
    destruct (body x acc st) as [[a|e] s1]; [by apply IH|done].
Qed.

(** X11: whatever the files hold and whether the loader returns or raises,
    the store it leaves on disk has the five tables, and every table that
    was in the store before is still there with its columns and with its
    rows, unchanged, before any new one: the loader only ever appends. *)
Theorem loader_only_appends (w : world) :
  ∃ d',
    store_file (InsertData.main w).1.2 = Some d'
    ∧ grows (default ∅ (store_file w)) d'
    ∧ ∀ e, is_Some (d' !! entity_name e).
Proof.
  set (d0 := default ∅ (store_file w)).
  destruct (create_tables_idle d0 false ([] ++ [EvConnect])) as (tr0 & E0).
  set (dE := ensure "reviews" reviews_schema
               (ensure "orders" orders_schema
                  (ensure "customers" customers_schema
                     (ensure "products" products_schema
                        (ensure "categories" categories_schema d0))))) in *.
  assert (grows d0 dE) as H0E.
  { unfold dE. repeat (eapply grows_trans; [|apply grows_ensure]). apply grows_refl. }
  assert (∀ e, is_Some (dE !! entity_name e)) as HE.
  { intros e. unfold dE. rewrite !ensure_lookup.
    destruct (d0 !! entity_name e); [by eexists|]. destruct e; by eexists. }
  assert (∀ d', grows dE d' →
                grows d0 d' ∧ ∀ e, is_Some (d' !! entity_name e)) as Hfinal.
  { intros d' Hg. split; [by eapply grows_trans|].
    intros e. destruct (HE e) as [tb Htb].
    destruct (Hg _ _ Htb) as (extra & ->). by eexists. }
  pose (J := λ s : state, grows dE (disk s)).
  pose (I := λ s : state, txn s = None ∧ grows dE (disk s)).
  assert (J (InsertData.run (csv_files w) (connect w [])).2) as HJ.
  { unfold InsertData.run, connect. fold d0.
    erewrite bind_ok by exact E0.
    unfold mbind at 1. unfold M_bind at 1.
    pose proof (for_loop_invariant I J order (ingest (csv_files w)) []
                  (State dE None true tr0)) as Hloop.
    destruct (for_loop order _ _ _) as [[results|e] s1].
    - assert (I s1) as [Hidle Hg].
      { apply Hloop; [|split; [done|apply grows_refl]].
        intros x a s [Hs Hgs]. unfold ingest.
        destruct (dict_get x DATA_FILES) as [file|]; [|exact Hgs].
        unfold mbind, M_bind.
        destruct (insert_csv (csv_files w) x file s) as [[n|e] s'] eqn:Ei.
        - destruct (insert_csv_ok_grows _ _ _ _ _ _ Hs Ei) as [Hs' Hg'].
          split; [done|]. by eapply grows_trans.
        - unfold J. by rewrite (insert_csv_raise_disk _ _ _ _ _ _ Ei). }
      unfold mbind at 1. unfold M_bind at 1. unfold print at 1, log, record.
      simpl.
      pose proof (for_loop_invariant J J results
                    (λ (tc : string * Z) (_ : ()),
                       print (summary_line tc.1 tc.2)) ()
                    (State (disk s1) (txn s1) (foreign_keys s1)
                       (trace s1 ++ [EvPrint "Insertion summary:"]))) as Hp.
      destruct (for_loop results _ _ _) as [[u|e] s2]; simpl; apply Hp; try done.
      all: intros x a s Hs; exact Hs.
    - simpl. apply Hloop; [|split; [done|apply grows_refl]].
      intros x a s [Hs Hgs]. unfold ingest.
      destruct (dict_get x DATA_FILES) as [file|]; [|exact Hgs].
      unfold mbind, M_bind.
      destruct (insert_csv (csv_files w) x file s) as [[n|e'] s'] eqn:Ei.
      + destruct (insert_csv_ok_grows _ _ _ _ _ _ Hs Ei) as [Hs' Hg'].
        split; [done|]. by eapply grows_trans.
      + unfold J. by rewrite (insert_csv_raise_disk _ _ _ _ _ _ Ei). }
  unfold InsertData.main, try_finally.
  destruct (InsertData.run (csv_files w) (connect w [])) as [r s]. simpl in *.
  exists (disk s). split; [reflexivity|]. by apply Hfinal.
Qed.

(** *** The query text *)

Lemma lstrip_app_space lead s :
  RunReportToDb.all_space lead = true →
  RunReportToDb.lstrip (lead +:+ s) = RunReportToDb.lstrip s.
Proof.
  induction lead as [|a lead IH]; simpl; [done|].
  intros Hs. apply andb_true_iff in Hs as [-> Hs]. by apply IH.
Qed.

Lemma lstrip_all_space t :
  RunReportToDb.all_space t = true → RunReportToDb.lstrip t = "".
Proof.
  induction t as [|a t IH]; simpl; [done|].
  intros Hs. apply andb_true_iff in Hs as [-> Hs]. by apply IH.
Qed.

Lemma lstrip_clean s :
  RunReportToDb.no_leading_space s = true → RunReportToDb.lstrip s = s.
Proof.
  destruct s as [|a s]; simpl; [done|].
  intros Ha. apply negb_true_iff in Ha. by rewrite Ha.
Qed.

Lemma rstrip_all_space t :
  RunReportToDb.all_space t = true → RunReportToDb.rstrip t = "".
Proof.
  induction t as [|a t IH]; simpl; [done|].
  intros Hs. apply andb_true_iff in Hs as [-> Hs]. by rewrite IH.
Qed.

Lemma rstrip_app_space s t :
  RunReportToDb.all_space t = true →
  RunReportToDb.rstrip (s +:+ t) = RunReportToDb.rstrip s.
Proof.
  intros Ht. induction s as [|a s IH]; simpl.
  - by apply rstrip_all_space.
  - by rewrite IH.
Qed.

Lemma rstrip_terminated q :
  RunReportToDb.rstrip (q +:+ ";") = q +:+ ";".
Proof.
  induction q as [|a q IH]; simpl; [reflexivity|].
  rewrite IH. by destruct q.
Qed.

Lemma endswith_terminated q :
  RunReportToDb.endswith_semicolon (q +:+ ";") = true.
Proof.
  induction q as [|a q IH]; [reflexivity|].
  simpl. rewrite IH. by destruct q.
Qed.

Lemma drop_last_terminated q : RunReportToDb.drop_last (q +:+ ";") = q.
Proof.
  induction q as [|a q IH]; [reflexivity|].
  simpl. rewrite IH. by destruct q.
Qed.

(** X12: the query that the materializer runs is the statement of the file
    without its terminator and without the white space around it: for a text
    [q] that does not start with white space, a file made of white space,
    [q], one [;] and white space gives the query [q]. *)
Theorem query_text_drops_terminator_and_space (lead q trail : string) :
  RunReportToDb.all_space lead = true →
  RunReportToDb.all_space trail = true →
  RunReportToDb.no_leading_space (q +:+ ";") = true →
  RunReportToDb.query_text (lead +:+ (q +:+ ";") +:+ trail) = q.
Proof.
  intros Hlead Htrail Hq. unfold RunReportToDb.query_text, RunReportToDb.strip.
  rewrite lstrip_app_space by done.
  rewrite lstrip_clean; cycle 1.
  { destruct q; simpl in *; done. }
  rewrite rstrip_app_space by done.
  by rewrite rstrip_terminated, endswith_terminated, drop_last_terminated.
Qed.

(** X13: only one terminator is removed, and only at the very end: a
    statement that is not followed by [;] is kept whole once the white space
    around it is removed, including any [;] inside it. *)
Theorem query_text_keeps_unterminated_statement (lead q trail : string) :
  RunReportToDb.all_space lead = true →
  RunReportToDb.all_space trail = true →
  RunReportToDb.no_leading_space q = true →
  RunReportToDb.rstrip q = q →
  RunReportToDb.endswith_semicolon q = false →
  RunReportToDb.query_text (lead +:+ q +:+ trail) = q.
Proof.
  intros Hlead Htrail Hq Hr He. unfold RunReportToDb.query_text, RunReportToDb.strip.
  rewrite lstrip_app_space by done.
  destruct q as [|a q].
  - simpl. by rewrite lstrip_all_space.
  - rewrite lstrip_clean by done.
    by rewrite rstrip_app_space, Hr, He.
Qed.

(** *** The snapshot *)


(** X15: whatever the query and whether the run returns or raises, the
    materializer leaves every table other than [report_output] as it was. *)
Theorem report_touches_only_the_snapshot (w : world) (d : db) :
  store_file w = Some d →
  ∃ d',
    store_file (RunReportToDb.main w).1.2 = Some d'
    ∧ ∀ t, t ≠ "report_output" → d' !! t = d !! t.
Proof.
  intros Hs. unfold RunReportToDb.main, try_finally, connect, persist.
  rewrite Hs. destruct (sql_file w) as [text|]; simpl.
  - rewrite report_run_outcome.
    destruct (sql_select _ _) as [tb|]; simpl; eexists; (split; [reflexivity|]);
      intros t Ht.
    + by apply lookup_insert_ne.
    + by apply lookup_delete_ne.
  - exists d. done.
Qed.

(** *** Rows that are skipped *)

Lemma insert_many_all_violating fk t cols ps (d d' : db) res tb :
  d !! t = Some tb →
  Forall (λ p, violates_notnull (tbl_schema tb) (new_row (tbl_schema tb) cols p)
               = true) ps →
  insert_many fk t cols ps d = (res, d') →
  d' = d.
Proof.
  intros Ht Hall. induction Hall as [|p ps Hp _ IH]; simpl.
  - by intros [= _ <-].
  - unfold insert_or_ignore at 1. rewrite Ht.
    destruct (negb _); [by intros [= _ <-]|].
    destruct (negb _); [by intros [= _ <-]|].
    rewrite Hp. exact IH.
Qed.

Lemma entity_required_null e (r : csv_row) f p :
  f ∈ required_fields e →
  r !! f = None →
  entity_params e r = Ok p →
  violates_notnull (entity_schema e)
    (new_row (entity_schema e) (entity_columns e) p) = true.
Proof.
  intros Hf Hnone Hp.
  destruct e; split_fields Hf; revert Hp; simpl; run_params;
    intros [= <-]; rewrite Hnone; reflexivity.
Qed.

(** X16: a row without its required name is skipped in silence: when the
    file of categories, products or customers has no value for the name
    field in any row (for instance because the header lacks that column), a
    call of [insert_csv] that returns has inserted nothing, reports 0 and
    leaves the store as it was. *)
Theorem insert_csv_skips_rows_without_required_name
    (files : gmap string (list csv_row)) (e : entity) (file_path f : string)
    (rows : list csv_row) (st st' : state) (n : Z) :
  initialised e (view st) →
  files !! file_path = Some rows →
  f ∈ required_fields e →
  (∀ r, r ∈ rows → r !! f = None) →
  insert_csv files (entity_name e) file_path st = (Ok n, st') →
  n = 0 ∧ view st' = view st.
Proof.
  intros (tb & Ht & Hsch) Hf Hreq Hnone Hrun.
  destruct (insert_csv_success _ _ _ _ _ _ _ _ Ht Hsch Hf Hrun)
    as (ps & extra & Hps & Hm & -> & ->).
  assert (<[entity_name e := Table (entity_schema e) (tbl_rows tb ++ extra)]>
            (view st) = view st) as Hsame.
  { eapply insert_many_all_violating; [exact Ht| |exact Hm].
    apply Forall_forall. intros p Hp.
    destruct (for_each_ok_elem _ _ _ _ Hps Hp) as (r & Hr & Er).
    rewrite Hsch. eapply entity_required_null; eauto. }
  assert (extra = []) as ->.
  { apply (f_equal (λ m : db, tbl_rows <$> m !! entity_name e)) in Hsame.
    simpl in Hsame. rewrite lookup_insert_eq, Ht in Hsame. simpl in Hsame.
    injection Hsame as Hsame.
    rewrite <- (app_nil_r (tbl_rows tb)) in Hsame at 2.
    by apply app_inv_head in Hsame. }
  split; [reflexivity|]. unfold view at 1. simpl. exact Hsame.
Qed.

Lemma for_each_ok_mono {A B} (f g : A → result B) l ys :
  (∀ x y, f x = Ok y → g x = Ok y) →
  for_each f l = Ok ys → for_each g l = Ok ys.
Proof.
  intros Hfg. revert ys. induction l as [|x l IH]; simpl; intros ys; [done|].
  destruct (f x) as [y|] eqn:Ex; [|done]. rewrite (Hfg _ _ Ex).
  destruct (for_each f l) as [ys0|]; [|done]. by rewrite (IH _ eq_refl).
Qed.

Lemma prepare_insert_grows fk t cols (d d' : db) :
  grows d d' →
  prepare_insert fk t cols d = Ok () → prepare_insert fk t cols d' = Ok ().
Proof.
  intros Hg. unfold prepare_insert.
  destruct (d !! t) as [tb|] eqn:Ht; [|done].
  destruct (Hg _ _ Ht) as (extra & ->). simpl.
  destruct (list_find _ cols) as [[]|]; [done|].
  destruct fk; [|done]. unfold mbind, result_bind.
  destruct (for_each _ (tbl_schema tb)) as [ys|] eqn:E; [|done]. intros _.
  erewrite for_each_ok_mono; [reflexivity| |exact E].
  intros c y. simpl. destruct (col_ref c) as [ref|]; [|done].
  by apply parent_key_grows.
Qed.

Lemma insert_csv_rerun
    (files : gmap string (list csv_row)) (e : entity) (file_path : string)
    (rows : list csv_row) (st st1 st2 : state) (n : Z) :
  initialised e (view st) →
  files !! file_path = Some rows →
  (∀ r, r ∈ rows → ¬ blank r "ID") →
  insert_csv files (entity_name e) file_path st = (Ok n, st1) →
  grows (view st1) (view st2) →
  foreign_keys st2 = foreign_keys st →
  insert_csv files (entity_name e) file_path st2
  = (Ok 0,
     State (view st2) None (foreign_keys st2)
       (trace st2 ++
        [EvExecute (SelectCount (entity_name e));
         EvExecuteMany (InsertOrIgnore (entity_name e) (entity_columns e))
           (length rows);
         EvCommit;
         EvExecute (SelectCount (entity_name e))])).
Proof.
  intros (tb & Ht & Hsch) Hf Hid Hrun Hg Hfk.
  destruct (insert_csv_ok_inv _ _ _ _ _ _ _ _ Ht Hf Hrun)
    as (ps & d' & Hps & Hp & Hm & Hd & Hx & _).
  destruct (insert_many_ok _ _ _ _ _ _ _ Ht Hm) as (extra & Ht' & _ & _ & Hset).
  assert (Forall (settled (tbl_schema tb) (entity_columns e)
                    (tbl_rows tb ++ extra)) ps) as Hall.
  { apply (Hset 0%nat); [by rewrite Hsch, entity_pk|].
    apply Forall_forall. intros p Hin.
    destruct (for_each_ok_elem _ _ _ _ Hps Hin) as (r & Hr & Er).
    rewrite Hsch. eapply entity_key; [by apply Hid|done]. }
  assert (view st1 = d') as Hv by (unfold view; by rewrite Hx, Hd).
  assert (grows (view st) d') as Hg0.
  { intros t' tb' Ht''. destruct (decide (t' = entity_name e)) as [->|Hne].
    - rewrite Ht in Ht''. injection Ht'' as <-. by exists extra.
    - destruct (insert_many_ok _ _ _ _ _ _ _ Ht Hm) as (_ & _ & Ho & _).
      exists []. rewrite app_nil_r, Ho by done. by destruct tb'. }
  rewrite Hv in Hg.
  destruct (Hg _ _ Ht') as (more & Ht2). simpl in Ht2.
  assert (length ps = length rows) as Hlen.
  { symmetry. eapply Forall2_length, for_each_ok_inv, Hps. }
  rewrite (insert_csv_batch files e file_path rows st2
             (Table (tbl_schema tb) ((tbl_rows tb ++ extra) ++ more)) ps (view st2)
             (Table (tbl_schema tb) ((tbl_rows tb ++ extra) ++ more))).
  - by rewrite Z.sub_diag, Hlen.
  - done.
  - done.
  - done.
  - rewrite Hfk. eapply prepare_insert_grows; [|exact Hp].
    by eapply grows_trans.
  - apply (insert_many_settled _ _ _ _ _
             (Table (tbl_schema tb) ((tbl_rows tb ++ extra) ++ more))); [done|].
    simpl. eapply Forall_impl; [exact Hall|]. intros p. apply settled_app.
  - done.
Qed.

(** X17: rows that were loaded stay loaded: when every row of the file
    carries a non-empty id and a run of [insert_csv] on an entity has
    returned, a later run on the same file returns 0 and changes no table,
    also after other runs have added rows to the store in between. *)
Theorem insert_csv_skips_rows_loaded_before
    (files : gmap string (list csv_row)) (e : entity) (file_path : string)
    (rows : list csv_row) (st st1 st2 : state) (n : Z) :
  initialised e (view st) →
  files !! file_path = Some rows →
  (∀ r, r ∈ rows → ¬ blank r "ID") →
  insert_csv files (entity_name e) file_path st = (Ok n, st1) →
  grows (view st1) (view st2) →
  foreign_keys st2 = foreign_keys st →
  ∃ st3,
    insert_csv files (entity_name e) file_path st2 = (Ok 0, st3)
    ∧ view st3 = view st2
    ∧ txn st3 = None.
Proof.
  intros Hinit Hf Hid Hrun Hg Hfk.
  eexists. split.
  - eapply insert_csv_rerun; eassumption.
  - split; reflexivity.
Qed.

(** *** Running the loader again *)

Lemma initialised_grows e (d d' : db) :
  grows d d' → initialised e d → initialised e d'.
Proof.
  intros Hg (tb & Ht & Hsch). destruct (Hg _ _ Ht) as (extra & Ht').
  eexists. split; [exact Ht'|exact Hsch].
Qed.

Lemma ensure_present t sch (d : db) : is_Some (d !! t) → ensure t sch d = d.
Proof. intros [tb Ht]. unfold ensure. by rewrite Ht. Qed.

Lemma insert_csv_ok_idle files e file_path st n st' :
  txn st = None →
  insert_csv files (entity_name e) file_path st = (Ok n, st') →
  txn st' = None
  ∧ foreign_keys st' = foreign_keys st
  ∧ grows (disk st) (disk st').
Proof.
  intros Hidle Hrun.
  destruct (insert_csv_ok_grows _ _ _ _ _ _ Hidle Hrun) as [Hx Hg].
  split; [done|]. split; [|done].
  destruct (view st !! entity_name e) as [tb|] eqn:Ht; cycle 1.
  { revert Hrun. unfold insert_csv.
    erewrite bind_raise by (by apply fetch_count_none). done. }
  destruct (files !! file_path) as [rows|] eqn:Hf.
  - by destruct (insert_csv_ok_inv _ _ _ _ _ _ _ _ Ht Hf Hrun)
      as (ps & d' & _ & _ & _ & _ & _ & Hfk).
  - revert Hrun. unfold insert_csv.
    erewrite bind_ok by (by apply fetch_count_some).
    rewrite Hf. unfold mbind, M_bind, print, log, mret, M_ret. simpl.
    by intros [= _ <-].
Qed.

(** The states of a run of the loader that returns. *)
Lemma loader_run_states (w w1 : world) (tr1 : list event) :
  InsertData.main w = (Ok (), w1, tr1) →
  ∃ s0 n1 s1 n2 s2 n3 s3 n4 s4 n5 s5,
    create_tables (connect w []) = (Ok (), s0)
    ∧ insert_csv (csv_files w) "categories" "categories.csv" s0 = (Ok n1, s1)
    ∧ insert_csv (csv_files w) "products" "products.csv" s1 = (Ok n2, s2)
    ∧ insert_csv (csv_files w) "customers" "customers.csv" s2 = (Ok n3, s3)
    ∧ insert_csv (csv_files w) "orders" "orders.csv" s3 = (Ok n4, s4)
    ∧ insert_csv (csv_files w) "reviews" "reviews.csv" s4 = (Ok n5, s5)
    ∧ w1 = World (Some (disk s5)) (csv_files w) (sql_file w).
Proof.
  unfold InsertData.main, try_finally, InsertData.run.
  unfold mbind at 1. unfold M_bind at 1.
  destruct (create_tables (connect w [])) as [[[]|e0] s0] eqn:E0;
    [|by intros [=]].
  unfold mbind at 1. unfold M_bind at 1. rewrite loader_loop.
  destruct (insert_csv _ "categories" _ s0) as [[n1|e] s1] eqn:E1; [|by intros [=]].
  destruct (insert_csv _ "products" _ s1) as [[n2|e] s2] eqn:E2; [|by intros [=]].
  destruct (insert_csv _ "customers" _ s2) as [[n3|e] s3] eqn:E3; [|by intros [=]].
  destruct (insert_csv _ "orders" _ s3) as [[n4|e] s4] eqn:E4; [|by intros [=]].
  destruct (insert_csv _ "reviews" _ s4) as [[n5|e] s5] eqn:E5; [|by intros [=]].
  intros [= <- _].
  exists s0, n1, s1, n2, s2, n3, s3, n4, s4, n5, s5. done.
Qed.

Lemma print_loop_trace (results : list (string * Z)) d o fk tr :
  for_loop results (λ tc _, print (summary_line tc.1 tc.2)) () (State d o fk tr)
  = (Ok (),
     State d o fk (tr ++ map (λ tc, EvPrint (summary_line tc.1 tc.2)) results)).
Proof.
  revert tr. induction results as [|tc results IH]; intros tr.
  - cbn [for_loop map]. by rewrite app_nil_r.
  - rewrite for_loop_cons. unfold print at 1, log, record.
    cbn [disk txn foreign_keys trace].
    rewrite IH. cbn [map]. by rewrite <- app_assoc.
Qed.

Lemma summary_trace (results : list (string * Z)) (st : state) :
  (print "Insertion summary:";;
   for_loop results (λ tc _, print (summary_line tc.1 tc.2)) ()) st
  = (Ok (),
     State (disk st) (txn st) (foreign_keys st)
       (trace st ++
        EvPrint "Insertion summary:"
        :: map (λ tc, EvPrint (summary_line tc.1 tc.2)) results)).
Proof.
  unfold mbind at 1. unfold M_bind at 1. unfold print at 1, log, record.
  rewrite print_loop_trace. by rewrite <- app_assoc.
Qed.

Lemma summary_line_zero t :
  summary_line t 0 = "- " +:+ t +:+ ": 0 rows inserted".
Proof.
  unfold summary_line. by replace (pretty 0) with "0" by (vm_compute; reflexivity).
Qed.

(** One entity of the second run, on the store [d5] that the first run
    left. *)
Lemma rerun_step files e (s s1 : state) n (d5 : db) tr :
  (∀ path rows r, files !! path = Some rows → r ∈ rows → ¬ blank r "ID") →
  initialised e (view s) →
  foreign_keys s = true →
  insert_csv files (entity_name e) (entity_name e +:+ ".csv") s = (Ok n, s1) →
  grows (view s1) d5 →
  ∃ tr',
    insert_csv files (entity_name e) (entity_name e +:+ ".csv")
      (State d5 None true tr)
    = (Ok 0, State d5 None true tr').
Proof.
  intros Hid Hinit Hfk Hrun Hg.
  destruct (files !! (entity_name e +:+ ".csv")) as [rows|] eqn:Hf.
  - eexists.
    apply (insert_csv_rerun files e _ rows s s1 (State d5 None true tr) n);
      try done.
    intros r Hr. by eapply Hid.
  - destruct Hinit as (tb & Ht & Hsch).
    assert (view s1 = view s) as Hv.
    { revert Hrun. unfold insert_csv.
      erewrite bind_ok by (by apply fetch_count_some).
      rewrite Hf. unfold mbind, M_bind, print, log, mret, M_ret. simpl.
      by intros [= _ <-]. }
    rewrite Hv in Hg. destruct (Hg _ _ Ht) as (extra & Ht5).
    eexists. unfold insert_csv.
    erewrite bind_ok by (by eapply fetch_count_some).
    rewrite Hf. unfold mbind, M_bind, print, log, mret, M_ret, record. simpl.
    reflexivity.
Qed.

(** X18: run again on the same files, the loader loads nothing: when the
    store is built from scratch, every row of every file carries a non-empty
    id and [main] returns, a second run of [main] on the store it left
    returns too, reports 0 rows inserted for each of the five entities and
    leaves the store exactly as it was. *)
Theorem loader_rerun_loads_nothing (w w1 : world) (tr1 : list event) :
  store_file w = None →
  (∀ path rows r, csv_files w !! path = Some rows → r ∈ rows → ¬ blank r "ID") →
  InsertData.main w = (Ok (), w1, tr1) →
  ∃ tr,
    InsertData.main w1
    = (Ok (), w1,
       tr ++ [EvPrint "Insertion summary:";
              EvPrint "- categories: 0 rows inserted";
              EvPrint "- products: 0 rows inserted";
              EvPrint "- customers: 0 rows inserted";
              EvPrint "- orders: 0 rows inserted";
              EvPrint "- reviews: 0 rows inserted";
              EvClose]).
Proof.
  intros Hfresh Hid Hmain.
  destruct (loader_run_states _ _ _ Hmain)
    as (s0 & n1 & s1 & n2 & s2 & n3 & s3 & n4 & s4 & n5 & s5
        & E0 & E1 & E2 & E3 & E4 & E5 & ->).
  (* the first run *)
  assert (txn s0 = None ∧ foreign_keys s0 = true ∧ disk s0 = view s0) as (X0 & F0 & V0).
  { pose proof (create_tables_enables_idle (connect w []) eq_refl) as Hc.
    rewrite E0 in Hc. simpl in Hc. tauto. }
  assert (∀ e, initialised e (view s0)) as I0.
  { intros e. pose proof (create_tables_initialises e (connect w [])) as Hc.
    rewrite E0 in Hc. apply Hc. intros tb.
    unfold connect, view. simpl. rewrite Hfresh. simpl.
    by rewrite lookup_empty. }
  destruct (insert_csv_ok_idle _ Categories _ _ _ _ X0 E1) as (X1 & F1 & G1).
  destruct (insert_csv_ok_idle _ Products _ _ _ _ X1 E2) as (X2 & F2 & G2).
  destruct (insert_csv_ok_idle _ Customers _ _ _ _ X2 E3) as (X3 & F3 & G3).
  destruct (insert_csv_ok_idle _ Orders _ _ _ _ X3 E4) as (X4 & F4 & G4).
  destruct (insert_csv_ok_idle _ Reviews _ _ _ _ X4 E5) as (X5 & F5 & G5).
  assert (∀ s : state, txn s = None → view s = disk s) as Hview.
  { intros s Hs. unfold view. by rewrite Hs. }
  rewrite <- (Hview s0 X0) in G1.
  rewrite <- (Hview s1 X1) in G1, G2. rewrite <- (Hview s2 X2) in G2, G3.
  rewrite <- (Hview s3 X3) in G3, G4. rewrite <- (Hview s4 X4) in G4, G5.
  assert (grows (view s5) (disk s5)) as H5
    by (rewrite (Hview s5 X5); apply grows_refl).
  set (d5 := disk s5) in *.
  assert (grows (view s4) d5) as H4 by done.
  assert (grows (view s3) d5) as H3 by (by eapply grows_trans).
  assert (grows (view s2) d5) as H2 by (by eapply grows_trans).
  assert (grows (view s1) d5) as H1' by (by eapply grows_trans).
  assert (grows (view s0) d5) as H0' by (by eapply grows_trans).
  pose proof (λ e, initialised_grows e _ _ G1 (I0 e)) as I1.
  pose proof (λ e, initialised_grows e _ _ G2 (I1 e)) as I2.
  pose proof (λ e, initialised_grows e _ _ G3 (I2 e)) as I3.
  pose proof (λ e, initialised_grows e _ _ G4 (I3 e)) as I4.
  rewrite F0 in F1. rewrite F1 in F2. rewrite F2 in F3. rewrite F3 in F4.
  (* the second run *)
  destruct (create_tables_idle d5 false ([] ++ [EvConnect])) as (t0 & C0).
  assert (∀ e, is_Some (d5 !! entity_name e)) as Hhave.
  { intros e. destruct (initialised_grows e _ _ H0' (I0 e)) as (tb & Htb & _).
    by eexists. }
  rewrite (ensure_present "categories") in C0 by apply (Hhave Categories).
  rewrite (ensure_present "products") in C0 by apply (Hhave Products).
  rewrite (ensure_present "customers") in C0 by apply (Hhave Customers).
  rewrite (ensure_present "orders") in C0 by apply (Hhave Orders).
  rewrite (ensure_present "reviews") in C0 by apply (Hhave Reviews).
  destruct (rerun_step _ Categories s0 s1 n1 d5 t0 Hid (I0 _) F0 E1 H1') as (t1 & R1).
  destruct (rerun_step _ Products s1 s2 n2 d5 t1 Hid (I1 _) F1 E2 H2) as (t2 & R2).
  destruct (rerun_step _ Customers s2 s3 n3 d5 t2 Hid (I2 _) F2 E3 H3) as (t3 & R3).
  destruct (rerun_step _ Orders s3 s4 n4 d5 t3 Hid (I3 _) F3 E4 H4) as (t4 & R4).
  destruct (rerun_step _ Reviews s4 s5 n5 d5 t4 Hid (I4 _) F4 E5 H5)
    as (t5 & R5).
  exists t5.
  unfold InsertData.main, try_finally, InsertData.run, connect, persist.
  cbn [store_file csv_files sql_file default].
  erewrite bind_ok by exact C0.
  unfold mbind at 1. unfold M_bind at 1.
  rewrite loader_loop.
  rewrite (R1 : insert_csv (csv_files w) "categories" "categories.csv" _ = _).
  rewrite (R2 : insert_csv (csv_files w) "products" "products.csv" _ = _).
  rewrite (R3 : insert_csv (csv_files w) "customers" "customers.csv" _ = _).
  rewrite (R4 : insert_csv (csv_files w) "orders" "orders.csv" _ = _).
  rewrite (R5 : insert_csv (csv_files w) "reviews" "reviews.csv" _ = _).
  rewrite summary_trace.
  unfold close, mbind, M_bind, log, act, record, set_txn.
  cbn [disk txn foreign_keys trace map fst snd].
  rewrite !summary_line_zero. by rewrite <- !app_assoc.
Qed.

(** *** Integers that do not fit *)

Lemma insert_many_ok_bindable fk t cols ps (d d' : db) tb :
  d !! t = Some tb →
  insert_many fk t cols ps d = (Ok (), d') →
  Forall (λ p, forallb bindable p = true) ps.
Proof.
  revert d tb. induction ps as [|p ps IH]; intros d tb Ht; simpl; [done|].
  destruct (insert_or_ignore fk t cols p d) as [d1|e] eqn:E1; [|done].
  intros Hm.
  destruct (insert_or_ignore_ok _ _ _ _ _ _ _ Ht E1) as (_ & Eb & Hcase).
  constructor; [done|].
  destruct Hcase as [[-> _]|(r' & -> & _)].
  - by eapply IH.
  - eapply IH; [|exact Hm]. apply lookup_insert_eq.
Qed.

Lemma for_each_ok_elem_l {A B} (f : A → result B) l ys x :
  for_each f l = Ok ys → x ∈ l → ∃ y, y ∈ ys ∧ f x = Ok y.
Proof.
  intros E Hx. apply for_each_ok_inv in E.
  apply list_elem_of_lookup in Hx as [i Hi].
  destruct (Forall2_lookup_l _ _ _ _ _ E Hi) as (y & Hy & Ey).
  exists y. split; [|done]. apply list_elem_of_lookup. eauto.
Qed.

Lemma entity_int_param e (r : csv_row) f z p :
  f ∈ int_fields e →
  to_int (r !! f) = Ok (Some z) →
  entity_params e r = Ok p →
  VInt z ∈ p.
Proof.
  intros Hf Hi Hp.
  destruct e; split_fields Hf; revert Hp; simpl;
    unfold categories_params, products_params, customers_params,
      orders_params, reviews_params;
    rewrite ?Hi; run_params; intros [= <-]; cbn [of_int];
    rewrite !elem_of_cons; tauto.
Qed.

(** X19: an integer that [int()] accepts but that does not fit in 64 bits
    fails the batch: when some row of the file holds one in an integer field,
    [insert_csv] raises, and nothing of the batch is committed. *)
Theorem insert_csv_rejects_oversized_integer
    (files : gmap string (list csv_row)) (e : entity) (file_path f s : string)
    (rows : list csv_row) (r : csv_row) (z : Z) (st : state) (tb : table) :
  view st !! entity_name e = Some tb →
  files !! file_path = Some rows →
  r ∈ rows →
  f ∈ int_fields e →
  r !! f = Some s → s ≠ "" → py_int s = Some z →
  in_int64 z = false →
  ∃ err st',
    insert_csv files (entity_name e) file_path st = (Raise err, st')
    ∧ disk st' = disk st.
Proof.
  intros Ht Hf Hr Hfield Hs Hne Hz Hbig.
  destruct (insert_csv files (entity_name e) file_path st) as [[n|err] st'] eqn:Hrun.
  - exfalso.
    destruct (insert_csv_ok_inv _ _ _ _ _ _ _ _ Ht Hf Hrun)
      as (ps & d' & Hps & _ & Hm & _).
    pose proof (insert_many_ok_bindable _ _ _ _ _ _ _ Ht Hm) as Hall.
    destruct (for_each_ok_elem_l _ _ _ _ Hps Hr) as (p & Hp & Ep).
    rewrite Forall_forall in Hall. specialize (Hall _ Hp).
    rewrite forallb_forall in Hall.
    pose proof (entity_int_param e r f z p Hfield
                  (to_int_number r f s z Hs Hne Hz) Ep) as Hin.
    apply list_elem_of_In in Hin. specialize (Hall _ Hin).
    simpl in Hall. congruence.
  - exists err, st'. split; [reflexivity|].
    by eapply insert_csv_raise_disk.
Qed.

(** *** No input at all *)

Lemma insert_csv_absent files e file_path d fk tr tb :
  d !! entity_name e = Some tb →
  files !! file_path = None →
  insert_csv files (entity_name e) file_path (State d None fk tr)
  = (Ok 0,
     State d None fk
       (tr ++ [EvExecute (SelectCount (entity_name e));
               EvPrint ("Warning: " +:+ file_path +:+ " not found, skipping "
                        +:+ entity_name e +:+ ".")])).
Proof.
  intros Ht Hf. unfold insert_csv.
  erewrite bind_ok by (by apply fetch_count_some).
  rewrite Hf. unfold mbind, M_bind, print, log, record, mret, M_ret. simpl.
  by rewrite <- app_assoc.
Qed.

(** X20: without any CSV file the loader only initialises the schema: it
    returns normally, warns once per entity, reports 0 rows for each, and the
    store it leaves is the one it found plus, empty, the tables that were
    missing. *)
Theorem loader_without_files_only_initialises (w : world) :
  csv_files w = ∅ →
  ∃ tr0,
    InsertData.main w
    = (Ok (),
       World
         (Some
            (ensure "reviews" reviews_schema
               (ensure "orders" orders_schema
                  (ensure "customers" customers_schema
                     (ensure "products" products_schema
                        (ensure "categories" categories_schema
                           (default ∅ (store_file w))))))))
         ∅ (sql_file w),
       tr0 ++
       [EvExecute (SelectCount "categories");
        EvPrint "Warning: categories.csv not found, skipping categories.";
        EvExecute (SelectCount "products");
        EvPrint "Warning: products.csv not found, skipping products.";
        EvExecute (SelectCount "customers");
        EvPrint "Warning: customers.csv not found, skipping customers.";
        EvExecute (SelectCount "orders");
        EvPrint "Warning: orders.csv not found, skipping orders.";
        EvExecute (SelectCount "reviews");
        EvPrint "Warning: reviews.csv not found, skipping reviews.";
        EvPrint "Insertion summary:";
        EvPrint "- categories: 0 rows inserted";
        EvPrint "- products: 0 rows inserted";
        EvPrint "- customers: 0 rows inserted";
        EvPrint "- orders: 0 rows inserted";
        EvPrint "- reviews: 0 rows inserted";
        EvClose]).
Proof.
  intros Hnone.
  set (d0 := default ∅ (store_file w)).
  destruct (create_tables_idle d0 false ([] ++ [EvConnect])) as (tr0 & E0).
  set (dE := ensure "reviews" reviews_schema
               (ensure "orders" orders_schema
                  (ensure "customers" customers_schema
                     (ensure "products" products_schema
                        (ensure "categories" categories_schema d0))))) in *.
  assert (∀ e, is_Some (dE !! entity_name e)) as HE.
  { intros e. unfold dE. rewrite !ensure_lookup.
    destruct (d0 !! entity_name e); [by eexists|]. destruct e; by eexists. }
  destruct (HE Categories) as [tb1 T1]. destruct (HE Products) as [tb2 T2].
  destruct (HE Customers) as [tb3 T3]. destruct (HE Orders) as [tb4 T4].
  destruct (HE Reviews) as [tb5 T5]. simpl in T1, T2, T3, T4, T5.
  exists tr0.
  unfold InsertData.main, try_finally, InsertData.run, connect, persist.
  fold d0. rewrite Hnone.
  erewrite bind_ok by exact E0.
  unfold mbind at 1. unfold M_bind at 1.
  rewrite loader_loop.
  rewrite (insert_csv_absent ∅ Categories "categories.csv" dE _ _ tb1 T1 (lookup_empty _)
           : insert_csv ∅ "categories" "categories.csv" _ = _).
  rewrite (insert_csv_absent ∅ Products "products.csv" dE _ _ tb2 T2 (lookup_empty _)
           : insert_csv ∅ "products" "products.csv" _ = _).
  rewrite (insert_csv_absent ∅ Customers "customers.csv" dE _ _ tb3 T3 (lookup_empty _)
           : insert_csv ∅ "customers" "customers.csv" _ = _).
  rewrite (insert_csv_absent ∅ Orders "orders.csv" dE _ _ tb4 T4 (lookup_empty _)
           : insert_csv ∅ "orders" "orders.csv" _ = _).
  rewrite (insert_csv_absent ∅ Reviews "reviews.csv" dE _ _ tb5 T5 (lookup_empty _)
           : insert_csv ∅ "reviews" "reviews.csv" _ = _).
  rewrite summary_trace.
  unfold close, mbind, M_bind, log, act, record, set_txn.
  cbn [disk txn foreign_keys trace map fst snd sql_file].
  rewrite !summary_line_zero. by rewrite <- !app_assoc.
Qed.

End Further.

(** ** The theorems on the sample files *)

Section Samples.
Import Sqlite InsertData Entities Demo.

Ltac not_in_order :=
  let Hin := fresh "Hin" in
  intros Hin;
  repeat (apply elem_of_cons in Hin as [Hin|Hin]; [discriminate Hin|]);
  by apply elem_of_nil in Hin.

Lemma ready_initialised e : initialised e (view ready).
Proof. destruct e; eexists; split; reflexivity. Defined.

(** The customers file is absent from the sample files. *)
Lemma C6_witness :
  insert_csv sample_files "customers" "customers.csv" ready
  = (Ok 0,
     State (disk ready) (txn ready) (foreign_keys ready)
       (trace ready ++ [EvExecute (SelectCount "customers");
                        EvPrint "Warning: customers.csv not found, skipping customers."])).
Proof.
  apply (C6_missing_file_is_skipped sample_files Customers "customers.csv"
           ready (Table customers_schema []));
    reflexivity.
Defined.


(** Three names that are none of the five: one that the store does not
    resolve, the name of an entity in capitals, with its file, and the name
    of the report, without a file. *)
Lemma C10_witness :
  insert_csv sample_files "suppliers" "categories.csv" ready
  = (Raise (NoSuchTable "suppliers"),
     State (disk ready) (txn ready) (foreign_keys ready)
       (trace ready ++ [EvExecute (SelectCount "suppliers")]))
  ∧ insert_csv sample_files "CATEGORIES" "categories.csv" ready
    = (Raise (ValueError_unknown_table "CATEGORIES"),
       State (disk ready) (txn ready) (foreign_keys ready)
         (trace ready ++ [EvExecute (SelectCount "CATEGORIES")]))
  ∧ insert_csv sample_files "report_output" "report_output.csv" reported
    = (Ok 0,
       State (disk reported) (txn reported) (foreign_keys reported)
         (trace reported
          ++ [EvExecute (SelectCount "report_output");
              EvPrint "Warning: report_output.csv not found, skipping report_output."])).
Proof.
  split; [|split].
  - destruct (C10_unknown_table_inserts_nothing sample_files "suppliers"
                "categories.csv" ready) as [E _]; [not_in_order|].
    rewrite E.
    assert (count_from "suppliers" (view ready) = Raise (NoSuchTable "suppliers"))
      as -> by (vm_compute; reflexivity).
    reflexivity.
  - destruct (C10_unknown_table_inserts_nothing sample_files "CATEGORIES"
                "categories.csv" ready) as [E _]; [not_in_order|].
    rewrite E.
    assert (count_from "CATEGORIES" (view ready) = Ok 0%nat)
      as -> by (vm_compute; reflexivity).
    reflexivity.
  - destruct (C10_unknown_table_inserts_nothing sample_files "report_output"
                "report_output.csv" reported) as [E _]; [not_in_order|].
    rewrite E.
    assert (count_from "report_output" (view reported) = Ok 0%nat)
      as -> by (vm_compute; reflexivity).
    reflexivity.
Defined.

(** The second row of the file has the price [cheap]. *)
Lemma C3_witness :
  ∃ err,
    insert_csv sample_files "products" "unpriced.csv" ready
    = (Raise err,
       State (disk ready) (txn ready) (foreign_keys ready)
         (trace ready ++ [EvExecute (SelectCount "products")]))
    ∧ is_type_conversion_error err = true.
Proof.
  apply (C3_malformed_number_fails_batch sample_files Products "unpriced.csv"
           [novel; unpriced] ready (Table products_schema [])).
  - reflexivity.
  - reflexivity.
  - exists unpriced. split.
    + apply elem_of_cons. right. apply elem_of_cons. left. reflexivity.
    + right. exists "price". split.
      * apply elem_of_cons. left. reflexivity.
      * exists "cheap". split; [reflexivity|]. split; [discriminate|reflexivity].
Defined.

(** The query names a table that the store does not have. *)
Lemma C2_witness :
  ∃ d',
    RunReportToDb.main (loaded "SELECT * FROM invoices;")
    = (Raise (SqlError "SELECT * FROM invoices"),
       World (Some d') sample_files (Some "SELECT * FROM invoices;"),
       [EvConnect;
        EvExecute PragmaForeignKeysOn;
        EvExecute (DropTableIfExists "report_output");
        EvExecute (CreateTableAs "report_output" "SELECT * FROM invoices");
        EvClose])
    ∧ d' !! "report_output" = None.
Proof.
  destruct (C2_failed_create_leaves_no_report
              (loaded "SELECT * FROM invoices;")
              (default ∅ (store_file (loaded "SELECT * FROM invoices;")))
              "SELECT * FROM invoices;")
    as (d' & E & Hd & _).
  - reflexivity.
  - reflexivity.
  - reflexivity.
  - exists d'. split; [exact E|exact Hd].
Defined.

(** The query copies the products table, into a store that holds the
    report of an earlier run. *)
Lemma C5_witness :
  restocked !! "report_output" = Some stale
  ∧ (RunReportToDb.main (reloaded " SELECT * FROM products; ")).1.1 = Ok ()
  ∧ store_file (RunReportToDb.main (reloaded " SELECT * FROM products; ")).1.2
    = Some (<["report_output" := products_copy]> restocked)
  ∧ (RunReportToDb.main (reloaded " SELECT * FROM products; ")).2
    = [EvConnect;
       EvExecute PragmaForeignKeysOn;
       EvExecute (DropTableIfExists "report_output");
       EvExecute (CreateTableAs "report_output" "SELECT * FROM products");
       EvCommit;
       EvExecute (SelectCount "report_output");
       EvPrint "Inserted 1 rows into report_output";
       EvClose].
Proof.
  destruct (C5_successful_materialization
              (reloaded " SELECT * FROM products; ") restocked
              " SELECT * FROM products; " eq_refl eq_refl)
    as (q & -> & _ & _ & Hmain).
  split; [apply lookup_insert_eq|].
  rewrite (Hmain products_copy) by (vm_compute; reflexivity).
  cbn [fst snd store_file].
  split; [reflexivity|]. split; [reflexivity|]. vm_compute. reflexivity.
Defined.


(** The categories file, loaded twice. *)
Lemma C1_witness :
  insert_csv sample_files "categories" "categories.csv" ready
  = (Ok 1, (insert_csv sample_files "categories" "categories.csv" ready).2)
  ∧ (insert_csv sample_files "categories" "categories.csv"
       (insert_csv sample_files "categories" "categories.csv" ready).2).1
    = Ok 0.
Proof.
  assert (insert_csv sample_files "categories" "categories.csv" ready
          = (Ok 1, (insert_csv sample_files "categories" "categories.csv" ready).2))
    as Hrun.
  { rewrite (surjective_pairing (insert_csv _ _ _ _)) at 1.
    f_equal; vm_compute; reflexivity. }
  split; [exact Hrun|].
  rewrite (C1_second_run_inserts_nothing sample_files Categories
             "categories.csv" [books] ready
             (insert_csv sample_files "categories" "categories.csv" ready).2 1).
  - reflexivity.
  - apply ready_initialised.
  - reflexivity.
  - intros r Hr. apply list_elem_of_singleton in Hr. subst r.
    intros [Hb|Hb]; discriminate Hb.
  - exact Hrun.
Defined.


(** The loader on the sample files: a category and a product are loaded,
    the other three files are absent. *)
Lemma C8_witness :
  ∃ st5,
    (InsertData.main sample_world).2
    = trace st5 ++ [EvPrint "Insertion summary:";
                    EvPrint "- categories: 1 rows inserted";
                    EvPrint "- products: 1 rows inserted";
                    EvPrint "- customers: 0 rows inserted";
                    EvPrint "- orders: 0 rows inserted";
                    EvPrint "- reviews: 0 rows inserted";
                    EvClose]
    ∧ store_file (InsertData.main sample_world).1.2 = Some (disk st5).
Proof.
  destruct (C8_loader_ingests_in_dependency_order sample_world
              (InsertData.main sample_world).1.2
              (InsertData.main sample_world).2)
    as (st0 & n1 & st1 & n2 & st2 & n3 & st3 & n4 & st4 & n5 & st5
        & E0 & E1 & E2 & E3 & E4 & E5 & Htr & Hw).
  - rewrite (surjective_pairing (InsertData.main sample_world)) at 1.
    rewrite (surjective_pairing (InsertData.main sample_world).1) at 1.
    do 2 f_equal; vm_compute; reflexivity.
  - exists st5. split; [|rewrite Hw; reflexivity].
    rewrite Htr. clear Htr Hw.
    apply (f_equal snd) in E0. cbn [snd] in E0. subst st0.
    pose proof (f_equal fst E1) as N1. apply (f_equal snd) in E1.
    cbn [fst snd] in N1, E1. subst st1.
    pose proof (f_equal fst E2) as N2. apply (f_equal snd) in E2.
    cbn [fst snd] in N2, E2. subst st2.
    pose proof (f_equal fst E3) as N3. apply (f_equal snd) in E3.
    cbn [fst snd] in N3, E3. subst st3.
    pose proof (f_equal fst E4) as N4. apply (f_equal snd) in E4.
    cbn [fst snd] in N4, E4. subst st4.
    pose proof (f_equal fst E5) as N5. clear E5.
    cbn [fst] in N5.
    vm_compute in N1. vm_compute in N2. vm_compute in N3.
    vm_compute in N4. vm_compute in N5.
    injection N1 as <-. injection N2 as <-. injection N3 as <-.
    injection N4 as <-. injection N5 as <-.
    f_equal; vm_compute; reflexivity.
Defined.

(** *** Where the claims as written fail *)

(** C1 as stated fails: a row with an empty [ID] gets a fresh key on every
    run, so the second run of the same file inserts a row again. *)
Lemma C1_counterexample :
  ¬ (∀ (files : gmap string (list csv_row)) (e : entity) (file_path : string)
       (st st1 : state) (n : Z),
       initialised e (view st) →
       insert_csv files (entity_name e) file_path st = (Ok n, st1) →
       ∃ st2,
         insert_csv files (entity_name e) file_path st1 = (Ok 0, st2)
         ∧ view st2 !! entity_name e = view st1 !! entity_name e).
Proof.
  intros Hclaim.
  destruct (Hclaim sample_files Categories "unnumbered.csv" ready
              (insert_csv sample_files "categories" "unnumbered.csv" ready).2 1
              (ready_initialised Categories))
    as (st2 & E & _).
  - rewrite (surjective_pairing (insert_csv _ _ _ _)) at 1.
    f_equal; vm_compute; reflexivity.
  - apply (f_equal fst) in E. vm_compute in E. discriminate E.
Qed.


(** C10 as stated fails: with a table of that name in the store and no
    source file, [insert_csv] returns 0 and raises nothing. *)
Lemma C10_counterexample :
  ("report_output" ∉ order)
  ∧ (insert_csv sample_files "report_output" "report_output.csv" reported).1
    = Ok 0
  ∧ trace (insert_csv sample_files "report_output" "report_output.csv" reported).2
    = [EvExecute (SelectCount "report_output");
       EvPrint "Warning: report_output.csv not found, skipping report_output."].
Proof.
  split; [not_in_order|]. split; vm_compute; reflexivity.
Qed.

End Samples.

(** ** The further properties on the sample files *)

Section FurtherSamples.
Import Sqlite InsertData Entities Demo.

(** [f x] returns what evaluation says and the state it leaves. *)
Ltac evaluates :=
  match goal with
  | |- ?fx = (_, _) =>
      rewrite (surjective_pairing fx) at 1; f_equal; vm_compute; reflexivity
  end.

Lemma stocked_initialised : initialised Products (view stocked).
Proof.
  exists (Table products_schema []).
  split; [vm_compute; reflexivity|reflexivity].
Defined.

(** A fresh connection. *)
Lemma create_tables_enables_foreign_keys_witness :
  foreign_keys (create_tables (connect sample_world [])).2 = true
  ∧ txn (create_tables (connect sample_world [])).2 = None
  ∧ disk (create_tables (connect sample_world [])).2
    = view (create_tables (connect sample_world [])).2.
Proof.
  apply (create_tables_enables_foreign_keys (connect sample_world [])).
  reflexivity.
Defined.

(** The second product of the file has no category to point to. *)
Lemma insert_csv_failure_commits_nothing_witness :
  (insert_csv broken_files "products" "products.csv" stocked).1
  = Raise ForeignKeyFailed
  ∧ disk (insert_csv broken_files "products" "products.csv" stocked).2
    = disk stocked
  ∧ view (close (insert_csv broken_files "products" "products.csv" stocked).2).2
    = disk stocked.
Proof.
  split; [vm_compute; reflexivity|].
  apply (insert_csv_failure_commits_nothing broken_files "products"
           "products.csv" stocked _ ForeignKeyFailed).
  evaluates.
Defined.

(** The product of the sample files. *)
Lemma insert_csv_count_is_rows_added_witness :
  ∃ old extra,
    view stocked !! "products" = Some (Table products_schema old)
    ∧ view (insert_csv sample_files "products" "products.csv" stocked).2
        !! "products"
      = Some (Table products_schema (old ++ extra))
    ∧ 1 = Z.of_nat (length extra).
Proof.
  destruct (insert_csv_count_is_rows_added sample_files Products "products.csv"
              [novel] stocked
              (insert_csv sample_files "products" "products.csv" stocked).2 1)
    as (old & extra & Hold & Hnew & Hn & _).
  - apply stocked_initialised.
  - reflexivity.
  - evaluates.
  - exists old, extra. split; [exact Hold|]. split; [exact Hnew|exact Hn].
Defined.

Lemma insert_csv_stores_text_as_read_witness :
  ∃ old extra,
    view (insert_csv sample_files "products" "products.csv" stocked).2
      !! "products"
    = Some (Table products_schema (old ++ extra))
    ∧ Forall (λ r',
                ∃ r, r ∈ [novel]
                     ∧ field_of products_schema "name" r'
                       = Some (match r !! "name" with
                               | Some s => VText s
                               | None => VNull
                               end))
        extra.
Proof.
  destruct (insert_csv_stores_text_as_read sample_files Products "products.csv"
              [novel] stocked
              (insert_csv sample_files "products" "products.csv" stocked).2 1)
    as (old & extra & _ & Hnew & Hall).
  - apply stocked_initialised.
  - reflexivity.
  - evaluates.
  - exists old, extra. split; [exact Hnew|].
    eapply Forall_impl; [exact Hall|]. cbv beta.
    intros r' (r & Hr & Hf). exists r. split; [exact Hr|].
    apply Hf. apply elem_of_cons. left. reflexivity.
Defined.


Lemma insert_csv_keeps_ids_distinct_witness :
  ∃ old new,
    view stocked !! "products" = Some (Table products_schema old)
    ∧ view (insert_csv sample_files "products" "products.csv" stocked).2
        !! "products"
      = Some (Table products_schema new)
    ∧ (NoDup (keys 0 old) → NoDup (keys 0 new)).
Proof.
  apply (insert_csv_keeps_ids_distinct sample_files Products "products.csv"
           [novel] stocked
           (insert_csv sample_files "products" "products.csv" stocked).2 1).
  - apply stocked_initialised.
  - reflexivity.
  - evaluates.
Defined.

Lemma insert_csv_adds_no_dangling_reference_witness :
  ∃ old extra,
    view (insert_csv sample_files "products" "products.csv" stocked).2
      !! "products"
    = Some (Table products_schema (old ++ extra))
    ∧ Forall (λ r',
                r' !! 2%nat = Some VNull
                ∨ ∃ k i pt,
                    r' !! 2%nat = Some (VInt k)
                    ∧ view (insert_csv sample_files "products" "products.csv"
                              stocked).2 !! "categories" = Some pt
                    ∧ k ∈ keys i (tbl_rows pt))
        extra.
Proof.
  destruct (insert_csv_adds_no_dangling_reference sample_files Products
              "products.csv" [novel] stocked
              (insert_csv sample_files "products" "products.csv" stocked).2 1)
    as (old & extra & _ & Hnew & Hall).
  - apply stocked_initialised.
  - vm_compute. reflexivity.
  - reflexivity.
  - evaluates.
  - exists old, extra. split; [exact Hnew|].
    eapply Forall_impl; [exact Hall|]. cbv beta.
    intros r' Hr'.
    destruct (Hr' 2%nat
                (Col "category" INTEGER false false (Some ("categories", "ID")))
                ("categories", "ID") eq_refl eq_refl)
      as [Hnull|(k & i & pt & Hk & Hpt & _ & Hin)].
    + left. exact Hnull.
    + right. exists k, i, pt. split; [exact Hk|]. split; [exact Hpt|exact Hin].
Defined.

(** The categories load, the products do not. *)
Lemma loader_failure_keeps_earlier_entities_witness :
  (InsertData.main broken_world).1.1 = Raise ForeignKeyFailed
  ∧ store_file (InsertData.main broken_world).1.2
    = Some (disk (for_loop ["categories"] (ingest broken_files) []
                    (create_tables (connect broken_world [])).2).2).
Proof.
  rewrite (loader_failure_keeps_earlier_entities broken_world
             ["categories"] ["customers"; "orders"; "reviews"] "products"
             [("categories", 1)]
             (for_loop ["categories"] (ingest broken_files) []
                (create_tables (connect broken_world [])).2).2
             (insert_csv broken_files "products" "products.csv"
                (for_loop ["categories"] (ingest broken_files) []
                   (create_tables (connect broken_world [])).2).2).2
             ForeignKeyFailed).
  - split; reflexivity.
  - reflexivity.
  - evaluates.
  - evaluates.
Defined.

Lemma query_text_drops_terminator_and_space_witness :
  RunReportToDb.query_text ("  " +:+ ("SELECT 1" +:+ ";") +:+ " ") = "SELECT 1".
Proof.
  apply (query_text_drops_terminator_and_space "  " "SELECT 1" " ");
    reflexivity.
Defined.

Lemma query_text_keeps_unterminated_statement_witness :
  RunReportToDb.query_text ("  " +:+ "SELECT 1; SELECT 2" +:+ " ")
  = "SELECT 1; SELECT 2".
Proof.
  apply (query_text_keeps_unterminated_statement "  " "SELECT 1; SELECT 2" " ");
    reflexivity.
Defined.

Lemma report_touches_only_the_snapshot_witness :
  ∃ d',
    store_file (RunReportToDb.main (loaded "SELECT * FROM products;")).1.2
    = Some d'
    ∧ ∀ t, t ≠ "report_output" →
           d' !! t
           = default ∅ (store_file (loaded "SELECT * FROM products;")) !! t.
Proof.
  apply (report_touches_only_the_snapshot (loaded "SELECT * FROM products;")).
  reflexivity.
Defined.

(** No row of the file has a name. *)
Lemma insert_csv_skips_rows_without_required_name_witness :
  (insert_csv nameless_files "products" "products.csv" stocked).1 = Ok 0
  ∧ view (insert_csv nameless_files "products" "products.csv" stocked).2
    = view stocked.
Proof.
  destruct (insert_csv_skips_rows_without_required_name nameless_files Products
              "products.csv" "name" [nameless] stocked
              (insert_csv nameless_files "products" "products.csv" stocked).2 0)
    as [_ Hv].
  - apply stocked_initialised.
  - reflexivity.
  - apply elem_of_cons. left. reflexivity.
  - intros r Hr. apply list_elem_of_singleton in Hr. subst r. reflexivity.
  - evaluates.
  - split; [vm_compute; reflexivity|exact Hv].
Defined.

(** The categories again, after the products were loaded. *)
Lemma insert_csv_skips_rows_loaded_before_witness :
  ∃ st3,
    insert_csv sample_files "categories" "categories.csv"
      (insert_csv sample_files "products" "products.csv" stocked).2
    = (Ok 0, st3)
    ∧ view st3 = view (insert_csv sample_files "products" "products.csv" stocked).2.
Proof.
  destruct (insert_csv_skips_rows_loaded_before sample_files Categories
              "categories.csv" [books] ready stocked
              (insert_csv sample_files "products" "products.csv" stocked).2 1)
    as (st3 & Hrun & Hv & _).
  - exists (Table categories_schema []). split; reflexivity.
  - reflexivity.
  - intros r Hr. apply list_elem_of_singleton in Hr. subst r.
    intros [Hb|Hb]; discriminate Hb.
  - unfold stocked. evaluates.
  - assert (txn stocked = None) as Hidle by (vm_compute; reflexivity).
    assert (txn (insert_csv sample_files "products" "products.csv" stocked).2
            = None) as Hidle' by (vm_compute; reflexivity).
    unfold view. rewrite Hidle, Hidle'. cbn [default].
    refine (proj2 (insert_csv_ok_grows sample_files "products" "products.csv"
                     stocked 1 _ Hidle _)).
    evaluates.
  - vm_compute. reflexivity.
  - exists st3. split; [exact Hrun|exact Hv].
Defined.

(** The loader, twice. *)
Lemma loader_rerun_loads_nothing_witness :
  ∃ tr,
    InsertData.main (InsertData.main clean_world).1.2
    = (Ok (), (InsertData.main clean_world).1.2,
       tr ++ [EvPrint "Insertion summary:";
              EvPrint "- categories: 0 rows inserted";
              EvPrint "- products: 0 rows inserted";
              EvPrint "- customers: 0 rows inserted";
              EvPrint "- orders: 0 rows inserted";
              EvPrint "- reviews: 0 rows inserted";
              EvClose]).
Proof.
  apply (loader_rerun_loads_nothing clean_world
           (InsertData.main clean_world).1.2 (InsertData.main clean_world).2).
  - reflexivity.
  - intros path rows r Hl Hr. unfold clean_world, clean_files in Hl.
    cbn [csv_files] in Hl.
    apply lookup_insert_Some in Hl as [[_ <-]|[_ Hl]].
    + apply list_elem_of_singleton in Hr. subst r.
      intros [Hb|Hb]; discriminate Hb.
    + apply lookup_singleton_Some in Hl as [_ <-].
      apply list_elem_of_singleton in Hr. subst r.
      intros [Hb|Hb]; discriminate Hb.
  - rewrite (surjective_pairing (InsertData.main clean_world)) at 1.
    rewrite (surjective_pairing (InsertData.main clean_world).1) at 1.
    do 2 f_equal; vm_compute; reflexivity.
Defined.

(** An id of twenty digits. *)
Lemma insert_csv_rejects_oversized_integer_witness :
  ∃ err st',
    insert_csv oversized_files "categories" "categories.csv" ready
    = (Raise err, st')
    ∧ disk st' = disk ready.
Proof.
  apply (insert_csv_rejects_oversized_integer oversized_files Categories
           "categories.csv" "ID" "99999999999999999999" [oversized] oversized
           99999999999999999999 ready (Table categories_schema [])).
  - reflexivity.
  - reflexivity.
  - apply elem_of_cons. left. reflexivity.
  - apply elem_of_cons. right. apply elem_of_cons. left. reflexivity.
  - reflexivity.
  - discriminate.
  - reflexivity.
  - reflexivity.
Defined.

(** No store and no file. *)
Lemma loader_without_files_only_initialises_witness :
  ∃ tr, (InsertData.main empty_world).2
        = tr ++ [EvPrint "Insertion summary:";
                 EvPrint "- categories: 0 rows inserted";
                 EvPrint "- products: 0 rows inserted";
                 EvPrint "- customers: 0 rows inserted";
                 EvPrint "- orders: 0 rows inserted";
                 EvPrint "- reviews: 0 rows inserted";
                 EvClose].
Proof.
  destruct (loader_without_files_only_initialises empty_world) as (tr0 & E).
  - reflexivity.
  - rewrite E. cbn [snd].
    exists (tr0 ++
            [EvExecute (SelectCount "categories");
             EvPrint "Warning: categories.csv not found, skipping categories.";
             EvExecute (SelectCount "products");
             EvPrint "Warning: products.csv not found, skipping products.";
             EvExecute (SelectCount "customers");
             EvPrint "Warning: customers.csv not found, skipping customers.";
             EvExecute (SelectCount "orders");
             EvPrint "Warning: orders.csv not found, skipping orders.";
             EvExecute (SelectCount "reviews");
             EvPrint "Warning: reviews.csv not found, skipping reviews."]).
    rewrite <- app_assoc. reflexivity.
Defined.

End FurtherSamples.
